(** * jsonrpcstomp: JSON-RPC 2.0 over a STOMP publish/subscribe transport

    A shallow embedding of [src/jsonrpcstomp.py]: the message classifier
    ([JSONRPCObject.__init__]), the session ([JSONRPCStomp]) with its
    registries and correlation counter, and the receive/dispatch loop
    ([_process_message], [run]).

    Modelling conventions.
    - Python values that travel through JSON are the inductive [pyval];
      numbers are restricted to integers, and [str] and [unicode] are one
      constructor.
    - Python exceptions are the type [exn]; every constructor stands for a
      subclass of [Exception].  A function that may raise returns an
      [outcome]; a method that mutates the session before raising returns
      the mutated session together with the [outcome].
    - The stompy client the class inherits from is a black box: its
      [subscribe], [put], [connect] and [disconnect] are recorded, in
      order, in the field [transport_log] of the session, and so is every
      invocation of a registered handler or callback.
    - A handler or callback is a function of its arguments that returns
      or raises; it does not reach back into the session.
    - [json.loads] and [json.dumps] belong to the Python library and are
      section variables; [Sample] has a concrete pair for the examples. *)

From Stdlib Require Import ZArith List Sorted Lia.
From stdpp Require Import base gmap strings pretty list fin_maps.

Set Warnings "-register-all".

Open Scope Z_scope.
Open Scope string_scope.

(** ** Module constants *)

Definition DEFAULT_PORT : Z := 62623.
Definition DEFAULT_RETRY_TIME : Z := 1.

Definition PREFIX_TOPIC_MESSAGE : string := "/topic/msg.local.".
Definition PREFIX_TOPIC_JOB : string := "/topic/req.local.".
Definition PREFIX_REPLY : string := "/topic/reply-".

Definition JSONRPC_KEY_PARAMS : string := "params".
Definition JSONRPC_KEY_METHOD : string := "method".
Definition JSONRPC_KEY_ID : string := "id".
Definition JSONRPC_KEY_RESULT : string := "result".
Definition JSONRPC_KEY_JSONRP : string := "jsonrpc".
Definition JSONRPC_KEY_ERROR : string := "error".
Definition JSONRPC_KEY_VERSION : string := "2.0".
Definition JSONRPC_KEY_REPLY_TO : string := "reply-to".

Definition JSONRPC_KEY_ERROR_CODE : string := "code".
Definition JSONRPC_KEY_ERROR_MESSAGE : string := "message".

Definition JSONRPC_VALUE_ERROR_PARSE : Z := -32700.
Definition JSONRPC_VALUE_ERROR_IN_REQ : Z := -32600.
Definition JSONRPC_VALUE_ERROR_MET_NOT : Z := -32601.
Definition JSONRPC_VALUE_ERROR_INV_PAR : Z := -32602.
Definition JSONRPC_VALUE_ERROR_INT_ERR : Z := -32603.

Definition JSONRPC_VALUE_MSG_PARSE : string := "Parse error".
Definition JSONRPC_VALUE_MSG_IN_REQ : string := "Invalid Request".
Definition JSONRPC_VALUE_MSG_MET_NOT : string := "Method not found".
Definition JSONRPC_VALUE_MSG_INV_PAR : string := "Invalid params".
Definition JSONRPC_VALUE_MSG_INT_ERR : string := "Internal error".

Definition ACK_CLIENT : string := "client".
Definition ACK_AUTO : string := "auto".

Definition MSG_QUIT : string := "quit".

(** The four values of [message_type] ('job', 'notification',
    'callback_sucess', 'callback_error'). *)
Inductive msg_type : Type :=
| MSG_TYPE_JOB
| MSG_TYPE_NOT
| MSG_TYPE_CALLBACK_SUCCESS
| MSG_TYPE_CALLBACK_ERROR.

Definition msg_type_eqb (a b : msg_type) : bool :=
  match a, b with
  | MSG_TYPE_JOB, MSG_TYPE_JOB
  | MSG_TYPE_NOT, MSG_TYPE_NOT
  | MSG_TYPE_CALLBACK_SUCCESS, MSG_TYPE_CALLBACK_SUCCESS
  | MSG_TYPE_CALLBACK_ERROR, MSG_TYPE_CALLBACK_ERROR => true
  | _, _ => false
  end.

(** ** Python values and exceptions *)

Inductive pyval : Type :=
| PNone
| PBool (b : bool)
| PInt (n : Z)
| PStr (s : string)
| PList (l : list pyval)
| PDict (d : list (string * pyval)).

Inductive exn : Type :=
| TypeError
| KeyError
| AttributeError
| ValueError
| NotImplementedError
| NotConnectedError
| HandlerError (tag : string).

Inductive outcome (A : Type) : Type :=
| Return (a : A)
| Raise (e : exn).
Arguments Return {A} a.
Arguments Raise {A} e.

(** A call made as a statement: the value is dropped, an exception
    propagates. *)
Definition ignore_value {A : Type} (r : outcome A) : outcome unit :=
  match r with
  | Return _ => Return tt
  | Raise e => Raise e
  end.

(** [x is None] *)
Definition is_None (v : pyval) : bool :=
  match v with PNone => true | _ => false end.

(** [d.get(k)] on a dict: the value of the first binding of [k], [None]
    when there is none. *)
Fixpoint dict_get (d : list (string * pyval)) (k : string) : pyval :=
  match d with
  | [] => PNone
  | (k', v) :: d' => if String.eqb k' k then v else dict_get d' k
  end.

(** [k in d] *)
Fixpoint dict_mem (d : list (string * pyval)) (k : string) : bool :=
  match d with
  | [] => false
  | (k', _) :: d' => if String.eqb k' k then true else dict_mem d' k
  end.

(** [len(v)] *)
Definition py_len (v : pyval) : outcome Z :=
  match v with
  | PStr s => Return (Z.of_nat (String.length s))
  | PList l => Return (Z.of_nat (List.length l))
  | PDict d => Return (Z.of_nat (List.length d))
  | PNone | PBool _ | PInt _ => Raise TypeError
  end.

(** [**v]: the keyword arguments a mapping unpacks to. *)
Definition py_kwargs (v : pyval) : outcome (list (string * pyval)) :=
  match v with
  | PDict d => Return d
  | _ => Raise TypeError
  end.

(** [prefix + v] for a [str] constant [prefix]. *)
Definition py_concat (prefix : string) (v : pyval) : outcome string :=
  match v with
  | PStr s => Return (prefix +:+ s)
  | _ => Raise TypeError
  end.

(** ** String operations of the classifier *)

(** [s.startswith(p)] *)
Definition startswith (s p : string) : bool := String.prefix p s.

(** [String.length sep] characters dropped from the front. *)
Fixpoint drop_chars (n : nat) (s : string) : string :=
  match n, s with
  | O, _ => s
  | S n', String _ s' => drop_chars n' s'
  | S _, EmptyString => EmptyString
  end.

(** [s.partition(sep)[-1]] for a non-empty [sep]: what follows the first
    occurrence of [sep] in [s], the empty string when [sep] does not
    occur. *)
Fixpoint partition_last (sep s : string) : string :=
  if String.prefix sep s then drop_chars (String.length sep) s
  else match s with
       | EmptyString => EmptyString
       | String _ s' => partition_last sep s'
       end.

(** ** Transport messages *)

Record Message : Type := mkMessage {
  headers : gmap string string;
  body : string }.

(** ** JSONRPCObject *)

Record JSONRPCObject : Type := mkJSONRPCObject {
  params : pyval;
  method : pyval;
  _id : pyval;
  result : pyval;
  error : pyval;
  message_type : option msg_type;  (* [None]: attribute never assigned *)
  notification : option string;    (* [None]: attribute never assigned *)
  reply_to : option string         (* header value, [None] when absent *)
}.

Definition set_message_type (o : JSONRPCObject) (t : msg_type) : JSONRPCObject :=
  mkJSONRPCObject (params o) (method o) (_id o) (result o) (error o)
                  (Some t) (notification o) (reply_to o).

Definition set_notification (o : JSONRPCObject) (n : string) : JSONRPCObject :=
  mkJSONRPCObject (params o) (method o) (_id o) (result o) (error o)
                  (message_type o) (Some n) (reply_to o).

Definition set_method (o : JSONRPCObject) (m : pyval) : JSONRPCObject :=
  mkJSONRPCObject (params o) m (_id o) (result o) (error o)
                  (message_type o) (notification o) (reply_to o).

Definition set_reply_to (o : JSONRPCObject) (r : option string) : JSONRPCObject :=
  mkJSONRPCObject (params o) (method o) (_id o) (result o) (error o)
                  (message_type o) (notification o) r.

(** The five [json_msg.get] at the head of [__init__]: the object before
    it is classified. *)
Definition envelope (d : list (string * pyval)) : JSONRPCObject :=
  {| params := dict_get d JSONRPC_KEY_PARAMS;
     method := dict_get d JSONRPC_KEY_METHOD;
     _id := dict_get d JSONRPC_KEY_ID;
     result := dict_get d JSONRPC_KEY_RESULT;
     error := dict_get d JSONRPC_KEY_ERROR;
     message_type := None; notification := None; reply_to := None |}.

(** The branching of [__init__] once the five envelope fields are read.
    [destination] is [None] when the header is missing; every use of it is
    then an attribute access on [None]. *)
Definition classify (destination : option string) (hdrs : gmap string string)
    (o : JSONRPCObject) : outcome JSONRPCObject :=
  match destination with
  | None => Raise AttributeError
  | Some destination =>
    if is_None (_id o) then
      let o := set_message_type o MSG_TYPE_NOT in
      Return (set_notification o (partition_last PREFIX_TOPIC_MESSAGE destination))
    else
      let o :=
        if startswith destination PREFIX_TOPIC_JOB then
          let o := set_message_type o MSG_TYPE_JOB in
          let o := set_method o (PStr (partition_last PREFIX_TOPIC_JOB destination)) in
          set_reply_to o (hdrs !! JSONRPC_KEY_REPLY_TO)
        else o in
      let o :=
        if startswith destination PREFIX_REPLY then
          if negb (is_None (result o)) then
            set_message_type o MSG_TYPE_CALLBACK_SUCCESS
          else
            set_message_type o MSG_TYPE_CALLBACK_ERROR
        else o in
      Return o
  end.

(** The [message_type] comparison behind the three properties; reading an
    attribute that was never assigned raises. *)
Definition message_type_is (o : JSONRPCObject) (t : msg_type) : outcome bool :=
  match message_type o with
  | None => Raise AttributeError
  | Some t' => Return (msg_type_eqb t' t)
  end.

Definition is_notification (o : JSONRPCObject) : outcome bool :=
  message_type_is o MSG_TYPE_NOT.

Definition is_job (o : JSONRPCObject) : outcome bool :=
  message_type_is o MSG_TYPE_JOB.

Definition is_callback (o : JSONRPCObject) : outcome bool :=
  match message_type_is o MSG_TYPE_CALLBACK_SUCCESS with
  | Raise e => Raise e
  | Return true => Return true
  | Return false => message_type_is o MSG_TYPE_CALLBACK_ERROR
  end.

(** ** Handlers, transport events and the session *)

(** What a handler hands back: a value [json.dumps] accepts, or any other
    object (a set, an instance of a class), for which [json.dumps] raises
    [TypeError]. *)
Inductive pyobj : Type :=
| Json (v : pyval)
| NotJson (repr : string).

(** A handler registered with [accept_calls] or [accept_notifications] is
    called with keyword arguments; a callback given to [call] is called
    with one positional argument.  Either returns a value or raises. *)
Abbreviation kwhandler := (list (string * pyval) → outcome pyobj).
Abbreviation callback := (pyval → outcome pyval).

Inductive event : Type :=
| EvConnect (ok : bool)
| EvSleep (seconds : Z)
| EvDisconnect
| EvSubscribe (destination : string) (ack : string)
| EvPut (item : string) (destination : option string)
        (conf : list (string * string))
| EvInvoke (h : kwhandler) (kwargs : list (string * pyval))
| EvCallback (c : callback) (arg : pyval).

Record JSONRPCStomp : Type := mkJSONRPCStomp {
  methods : gmap string kwhandler;
  notifiers : gmap string kwhandler;
  callbacks_success : gmap Z callback;
  callbacks_error : gmap Z callback;
  is_connected : bool;
  last_id : Z;
  reply_to_topic : option string;  (* [None]: attribute never assigned *)
  listen : bool;
  transport_log : list event }.

(** [JSONRPCStomp.__init__] *)
Definition JSONRPCStomp_init : JSONRPCStomp :=
  {| methods := ∅; notifiers := ∅;
     callbacks_success := ∅; callbacks_error := ∅;
     is_connected := false; last_id := 0;
     reply_to_topic := None; listen := false; transport_log := [] |}.

Definition emit (self : JSONRPCStomp) (e : event) : JSONRPCStomp :=
  {| methods := methods self; notifiers := notifiers self;
     callbacks_success := callbacks_success self;
     callbacks_error := callbacks_error self;
     is_connected := is_connected self; last_id := last_id self;
     reply_to_topic := reply_to_topic self; listen := listen self;
     transport_log := transport_log self ++ [e] |}.

Definition set_listen (self : JSONRPCStomp) (b : bool) : JSONRPCStomp :=
  {| methods := methods self; notifiers := notifiers self;
     callbacks_success := callbacks_success self;
     callbacks_error := callbacks_error self;
     is_connected := is_connected self; last_id := last_id self;
     reply_to_topic := reply_to_topic self; listen := b;
     transport_log := transport_log self |}.

Definition set_is_connected (self : JSONRPCStomp) (b : bool) : JSONRPCStomp :=
  {| methods := methods self; notifiers := notifiers self;
     callbacks_success := callbacks_success self;
     callbacks_error := callbacks_error self;
     is_connected := b; last_id := last_id self;
     reply_to_topic := reply_to_topic self; listen := listen self;
     transport_log := transport_log self |}.

Definition set_reply_to_topic (self : JSONRPCStomp) (t : string) : JSONRPCStomp :=
  {| methods := methods self; notifiers := notifiers self;
     callbacks_success := callbacks_success self;
     callbacks_error := callbacks_error self;
     is_connected := is_connected self; last_id := last_id self;
     reply_to_topic := Some t; listen := listen self;
     transport_log := transport_log self |}.

Definition set_last_id (self : JSONRPCStomp) (n : Z) : JSONRPCStomp :=
  {| methods := methods self; notifiers := notifiers self;
     callbacks_success := callbacks_success self;
     callbacks_error := callbacks_error self;
     is_connected := is_connected self; last_id := n;
     reply_to_topic := reply_to_topic self; listen := listen self;
     transport_log := transport_log self |}.

Definition set_methods (self : JSONRPCStomp) (m : gmap string kwhandler)
    : JSONRPCStomp :=
  {| methods := m; notifiers := notifiers self;
     callbacks_success := callbacks_success self;
     callbacks_error := callbacks_error self;
     is_connected := is_connected self; last_id := last_id self;
     reply_to_topic := reply_to_topic self; listen := listen self;
     transport_log := transport_log self |}.

Definition set_notifiers (self : JSONRPCStomp) (m : gmap string kwhandler)
    : JSONRPCStomp :=
  {| methods := methods self; notifiers := m;
     callbacks_success := callbacks_success self;
     callbacks_error := callbacks_error self;
     is_connected := is_connected self; last_id := last_id self;
     reply_to_topic := reply_to_topic self; listen := listen self;
     transport_log := transport_log self |}.

Definition set_callbacks (self : JSONRPCStomp)
    (cs ce : gmap Z callback) : JSONRPCStomp :=
  {| methods := methods self; notifiers := notifiers self;
     callbacks_success := cs; callbacks_error := ce;
     is_connected := is_connected self; last_id := last_id self;
     reply_to_topic := reply_to_topic self; listen := listen self;
     transport_log := transport_log self |}.

(** Two sessions that differ at most in [listen] and in the log. *)
Definition same_tables (s s' : JSONRPCStomp) : Prop :=
  methods s' = methods s
  ∧ notifiers s' = notifiers s
  ∧ callbacks_success s' = callbacks_success s
  ∧ callbacks_error s' = callbacks_error s
  ∧ last_id s' = last_id s
  ∧ reply_to_topic s' = reply_to_topic s
  ∧ is_connected s' = is_connected s.

(** The inherited transport operations, as the session sees them. *)
Definition subscribe (self : JSONRPCStomp) (destination ack : string)
    : JSONRPCStomp :=
  emit self (EvSubscribe destination ack).

Definition put (self : JSONRPCStomp) (item : string)
    (destination : option string) (conf : list (string * string))
    : JSONRPCStomp :=
  emit self (EvPut item destination conf).

(** [d[k]] on the handler registries, whose keys are strings. *)
Definition lookup_name (d : gmap string kwhandler) (k : pyval)
    : outcome kwhandler :=
  match k with
  | PStr s => match d !! s with Some h => Return h | None => Raise KeyError end
  | PList _ | PDict _ => Raise TypeError
  | PNone | PBool _ | PInt _ => Raise KeyError
  end.

(** [d[k]] on the correlation tables, whose keys are the integers handed
    out by [call].  [True] and [False] hash and compare as [1] and [0]. *)
Definition lookup_id (d : gmap Z callback) (k : pyval) : outcome callback :=
  let at_key n :=
    match d !! n with Some c => Return c | None => Raise KeyError end in
  match k with
  | PInt n => at_key n
  | PBool b => at_key (if b then 1 else 0)
  | PList _ | PDict _ => Raise TypeError
  | PNone | PStr _ => Raise KeyError
  end.

(** ** The code that depends on the JSON codec *)

Section Codec.

(** [json.loads] on a string ([None]: the text is not JSON, [ValueError])
    and [json.dumps] on a value. *)
Variable json_loads : string -> option pyval.
Variable json_dumps : pyval -> string.

(** [json.loads(v)] on a Python value: anything but a string is a
    [TypeError]. *)
Definition loads_value (v : pyval) : outcome pyval :=
  match v with
  | PStr s =>
    match json_loads s with
    | Some v' => Return v'
    | None => Raise ValueError
    end
  | _ => Raise TypeError
  end.

(** [JSONRPCObject.__init__] *)
Definition JSONRPCObject_init (message : Message) : outcome JSONRPCObject :=
  let destination := headers message !! "destination" in
  match json_loads (body message) with
  | None => Raise ValueError
  | Some json_msg =>
    match json_msg with
    | PDict d => classify destination (headers message) (envelope d)
    | _ => Raise AttributeError  (* only a dict has [get] *)
    end
  end.

(** ** JSONRPCStomp *)

(** The retry loop of [connect]: one entry of [attempts] per call of the
    inherited [connect], [true] when it succeeds and [false] when it raises
    [ConnectionError].  [None]: every given attempt failed and the loop is
    still retrying. *)
Fixpoint connect_loop (self : JSONRPCStomp) (attempts : list bool)
    : option JSONRPCStomp :=
  match attempts with
  | [] => None
  | true :: _ => Some (emit self (EvConnect true))
  | false :: rest =>
    connect_loop (emit (emit self (EvConnect false)) (EvSleep DEFAULT_RETRY_TIME))
                 rest
  end.

(** [connect]; [random_string] is the sixteen characters drawn from
    [random.choice]. *)
Definition connect (self : JSONRPCStomp) (attempts : list bool)
    (random_string : string) : option JSONRPCStomp :=
  match connect_loop self attempts with
  | None => None
  | Some self =>
    let self := set_reply_to_topic self (PREFIX_REPLY +:+ random_string) in
    let self := subscribe self (PREFIX_REPLY +:+ random_string) ACK_CLIENT in
    Some (set_is_connected self true)
  end.

Definition disconnect (self : JSONRPCStomp) : JSONRPCStomp :=
  set_is_connected (emit self EvDisconnect) false.

(** [isinstance(method, str)] *)
Definition isinstance_str (v : pyval) : option string :=
  match v with PStr s => Some s | _ => None end.

Definition accept_notifications (self : JSONRPCStomp) (method : pyval)
    (callback : kwhandler) : JSONRPCStomp * outcome unit :=
  if is_connected self then
    match isinstance_str method with
    | Some name =>
      let self := set_notifiers self (<[name := callback]> (notifiers self)) in
      let method_name := PREFIX_TOPIC_MESSAGE +:+ name in
      (subscribe self method_name ACK_AUTO, Return tt)
    | None => (self, Raise TypeError)
    end
  else (self, Raise NotConnectedError).

Definition accept_calls (self : JSONRPCStomp) (method : pyval)
    (callback : kwhandler) : JSONRPCStomp * outcome unit :=
  if is_connected self then
    match isinstance_str method with
    | Some name =>
      let self := set_methods self (<[name := callback]> (methods self)) in
      let method_name := PREFIX_TOPIC_JOB +:+ name in
      (subscribe self method_name ACK_AUTO, Return tt)
    | None => (self, Raise TypeError)
    end
  else (self, Raise NotConnectedError).

Definition notify (self : JSONRPCStomp) (method params : pyval)
    : JSONRPCStomp * outcome unit :=
  let message := PDict [(JSONRPC_KEY_JSONRP, PStr JSONRPC_KEY_VERSION);
                        (JSONRPC_KEY_METHOD, method);
                        (JSONRPC_KEY_PARAMS, params)] in
  let json_message := json_dumps message in
  match py_concat PREFIX_TOPIC_MESSAGE method with
  | Raise e => (self, Raise e)
  | Return destination =>
    (put self json_message (Some destination) [], Return tt)
  end.

(** The [trans_id] that [call] computes on entry. *)
Definition trans_id (self : JSONRPCStomp) : Z := last_id self + 1.

Definition call (self : JSONRPCStomp) (method params : pyval)
    (callback_success callback_error : callback)
    : JSONRPCStomp * outcome unit :=
  let trans_id := trans_id self in
  let self := set_last_id self trans_id in
  let self :=
    set_callbacks self
      (<[trans_id := callback_success]> (callbacks_success self))
      (<[trans_id := callback_error]> (callbacks_error self)) in
  let message := PDict [(JSONRPC_KEY_JSONRP, PStr JSONRPC_KEY_VERSION);
                        (JSONRPC_KEY_METHOD, method);
                        (JSONRPC_KEY_ID, PInt trans_id);
                        (JSONRPC_KEY_PARAMS, params)] in
  let json_message := json_dumps message in
  match py_concat PREFIX_TOPIC_JOB method with
  | Raise e => (self, Raise e)
  | Return destination =>
    match reply_to_topic self with
    | None => (self, Raise AttributeError)
    | Some topic =>
      (put self json_message (Some destination)
           [(JSONRPC_KEY_REPLY_TO, topic)], Return tt)
    end
  end.
(** The reply envelopes of the job branch. *)
Definition success_response (id result : pyval) : pyval :=
  PDict [(JSONRPC_KEY_JSONRP, PStr JSONRPC_KEY_VERSION);
         (JSONRPC_KEY_ID, id);
         (JSONRPC_KEY_RESULT, result)].

Definition internal_error : pyval :=
  PDict [(JSONRPC_KEY_ERROR_CODE, PInt JSONRPC_VALUE_ERROR_INT_ERR);
         (JSONRPC_KEY_ERROR_MESSAGE, PStr JSONRPC_VALUE_MSG_INT_ERR)].

Definition error_response (id : pyval) : pyval :=
  PDict [(JSONRPC_KEY_JSONRP, PStr JSONRPC_KEY_VERSION);
         (JSONRPC_KEY_ID, id);
         (JSONRPC_KEY_ERROR, internal_error)].

(** The body of the [try] of the job branch. *)
Definition job_try (self : JSONRPCStomp) (rpco : JSONRPCObject)
    : JSONRPCStomp * outcome unit :=
  match py_len (params rpco) with
  | Raise e => (self, Raise e)
  | Return n =>
    match (if (0 <? n)%Z then loads_value (params rpco) else Return (PDict [])) with
    | Raise e => (self, Raise e)
    | Return params =>
      match lookup_name (methods self) (method rpco) with
      | Raise e => (self, Raise e)
      | Return h =>
        match py_kwargs params with
        | Raise e => (self, Raise e)
        | Return kwargs =>
          let self := emit self (EvInvoke h kwargs) in
          match h kwargs with
          | Raise e => (self, Raise e)
          | Return (NotJson _) => (self, Raise TypeError) (* json.dumps *)
          | Return (Json result) =>
            let json_response := json_dumps (success_response (_id rpco) result) in
            (put self json_response (reply_to rpco) [], Return tt)
          end
        end
      end
    end
  end.

(** The job branch: the [try] and its [except Exception]. *)
Definition process_job (self : JSONRPCStomp) (rpco : JSONRPCObject)
    : JSONRPCStomp * outcome unit :=
  match job_try self rpco with
  | (self, Return _) => (self, Return tt)
  | (self, Raise _) =>
    let json_response := json_dumps (error_response (_id rpco)) in
    (put self json_response (reply_to rpco) [], Return tt)
  end.

(** The notification branch: the entry of [self.notifiers] at
    [rpco.notification], called with [rpco.params] unpacked as keyword
    arguments. *)
Definition process_notification (self : JSONRPCStomp) (rpco : JSONRPCObject)
    : JSONRPCStomp * outcome unit :=
  match notification rpco with
  | None => (self, Raise AttributeError)
  | Some name =>
    match notifiers self !! name with
    | None => (self, Raise KeyError)
    | Some h =>
      match py_kwargs (params rpco) with
      | Raise e => (self, Raise e)
      | Return kwargs =>
        (emit self (EvInvoke h kwargs), ignore_value (h kwargs))
      end
    end
  end.

(** One callback table consulted and its entry called. *)
Definition fire (self : JSONRPCStomp) (table : gmap Z callback)
    (id arg : pyval) : JSONRPCStomp * outcome unit :=
  match lookup_id table id with
  | Raise e => (self, Raise e)
  | Return c => (emit self (EvCallback c arg), ignore_value (c arg))
  end.

(** The callback branch. *)
Definition process_callback (self : JSONRPCStomp) (rpco : JSONRPCObject)
    : JSONRPCStomp * outcome unit :=
  match message_type rpco with
  | None => (self, Raise AttributeError)
  | Some t =>
    if msg_type_eqb t MSG_TYPE_CALLBACK_SUCCESS then
      fire self (callbacks_success self) (_id rpco) (result rpco)
    else
      fire self (callbacks_error self) (_id rpco) (error rpco)
  end.

Definition _process_message (self : JSONRPCStomp) (message : Message)
    : JSONRPCStomp * outcome unit :=
  if String.eqb (body message) MSG_QUIT then
    (set_listen self false, Return tt)
  else
    match JSONRPCObject_init message with
    | Raise e => (self, Raise e)
    | Return rpco =>
      match is_job rpco with
      | Raise e => (self, Raise e)
      | Return true => process_job self rpco
      | Return false =>
        match is_notification rpco with
        | Raise e => (self, Raise e)
        | Return true => process_notification self rpco
        | Return false =>
          match is_callback rpco with
          | Raise e => (self, Raise e)
          | Return true => process_callback self rpco
          | Return false => (self, Raise NotImplementedError)
          end
        end
      end
    end.

(** How a run of the dispatch loop over finitely many receives ends:
    the loop left because [listen] became false, an exception left
    [_process_message] and therefore [run], or the loop is blocked in the
    next [get]. *)
Inductive loop_status : Type :=
| Stopped
| Crashed (e : exn)
| Receiving.

(** The [while] of [run]; each entry of [inputs] is what one [self.get()]
    yields, [None] when it raises. *)
Fixpoint run_loop (self : JSONRPCStomp) (inputs : list (option Message))
    : JSONRPCStomp * loop_status :=
  if listen self then
    match inputs with
    | [] => (self, Receiving)
    | None :: rest =>
      run_loop (emit self (EvSleep DEFAULT_RETRY_TIME)) rest
    | Some message :: rest =>
      match _process_message self message with
      | (self, Return _) => run_loop self rest
      | (self, Raise e) => (self, Crashed e)
      end
    end
  else (self, Stopped).

Definition run (self : JSONRPCStomp) (inputs : list (option Message))
    : JSONRPCStomp * loop_status :=
  run_loop (set_listen self true) inputs.

(** ** Programs driving a session

    What an embedding program can do with a session, one constructor per
    public method, and the session after each step.  A step that raises
    leaves the session as the method left it; a [connect] that never
    returns has no successor. *)
Inductive op : Type :=
| Connect (attempts : list bool) (random_string : string)
| Disconnect
| AcceptNotifications (method : pyval) (callback : kwhandler)
| AcceptCalls (method : pyval) (callback : kwhandler)
| Notify (method params : pyval)
| Call (method params : pyval) (callback_success callback_error : callback)
| ProcessMessage (message : Message)
| Run (inputs : list (option Message)).

Definition exec (self : JSONRPCStomp) (o : op) : option JSONRPCStomp :=
  match o with
  | Connect attempts random_string => connect self attempts random_string
  | Disconnect => Some (disconnect self)
  | AcceptNotifications m cb => Some (fst (accept_notifications self m cb))
  | AcceptCalls m cb => Some (fst (accept_calls self m cb))
  | Notify m p => Some (fst (notify self m p))
  | Call m p cs ce => Some (fst (call self m p cs ce))
  | ProcessMessage message => Some (fst (_process_message self message))
  | Run inputs => Some (fst (run self inputs))
  end.

Fixpoint exec_all (self : JSONRPCStomp) (program : list op)
    : option JSONRPCStomp :=
  match program with
  | [] => Some self
  | o :: rest =>
    match exec self o with
    | Some self => exec_all self rest
    | None => None
    end
  end.

(** The correlation ids handed out while a program runs, in order: each
    [Call] contributes the [trans_id] that [call] computes. *)
Fixpoint call_ids (self : JSONRPCStomp) (program : list op) : list Z :=
  match program with
  | [] => []
  | o :: rest =>
    let here :=
      match o with
      | Call _ _ _ _ => [trans_id self]
      | _ => []
      end in
    match exec self o with
    | Some self => here ++ call_ids self rest
    | None => here
    end
  end.

(** Every key of the two correlation tables is at most [last_id]. *)
Definition keys_bounded (self : JSONRPCStomp) : Prop :=
  (∀ k, is_Some (callbacks_success self !! k) → (k ≤ last_id self)%Z)
  ∧ (∀ k, is_Some (callbacks_error self !! k) → (k ≤ last_id self)%Z).

Definition is_call (o : op) : bool :=
  match o with Call _ _ _ _ => true | _ => false end.

(** The messages published to the transport among some events. *)
Definition is_put (e : event) : bool :=
  match e with EvPut _ _ _ => true | _ => false end.

End Codec.

(** ** A concrete codec and sample envelopes *)

Module Sample.

Definition quoted (s : string) : string :=
  let q := String (Ascii.ascii_of_nat 34) EmptyString in
  q +:+ s +:+ q.

(** A serializer in the format of [json.dumps] (no escaping). *)
Fixpoint dumps (v : pyval) : string :=
  match v with
  | PNone => "null"
  | PBool b => if b then "true" else "false"
  | PInt n => pretty n
  | PStr s => quoted s
  | PList l =>
    "[" +:+
    (fix items (l : list pyval) : string :=
       match l with
       | [] => EmptyString
       | x :: [] => dumps x
       | x :: l' => dumps x +:+ ", " +:+ items l'
       end) l +:+ "]"
  | PDict d =>
    "{" +:+
    (fix members (d : list (string * pyval)) : string :=
       match d with
       | [] => EmptyString
       | (k, x) :: [] => quoted k +:+ ": " +:+ dumps x
       | (k, x) :: d' => quoted k +:+ ": " +:+ dumps x +:+ ", " +:+ members d'
       end) d +:+ "}"
  end.

Definition version : string * pyval :=
  (JSONRPC_KEY_JSONRP, PStr JSONRPC_KEY_VERSION).

(** [{"jsonrpc": "2.0", "id": 1, "result": 5}] *)
Definition reply_ok : pyval :=
  PDict [version; ("id", PInt 1); ("result", PInt 5)].

(** [{"jsonrpc": "2.0", "id": 1, "result": null}] *)
Definition reply_null : pyval :=
  PDict [version; ("id", PInt 1); ("result", PNone)].

(** [{"jsonrpc": "2.0", "id": 1, "error": {"code": -32603, "message": "Internal error"}}] *)
Definition reply_error : pyval :=
  PDict [version; ("id", PInt 1); ("error", internal_error)].

(** [{"jsonrpc": "2.0", "method": "echo", "id": 1}] *)
Definition job_without_params : pyval :=
  PDict [version; ("method", PStr "echo"); ("id", PInt 1)].

(** [{"jsonrpc": "2.0", "method": "echo", "id": 1, "params": {}}] *)
Definition job_empty_params : pyval :=
  PDict [version; ("method", PStr "echo"); ("id", PInt 1); ("params", PDict [])].

(** [{"jsonrpc": "2.0", "method": "ping", "params": {}}] *)
Definition ping : pyval :=
  PDict [version; ("method", PStr "ping"); ("params", PDict [])].

Definition samples : list pyval :=
  [reply_ok; reply_null; reply_error; job_without_params; job_empty_params;
   ping].

(** A decoder that inverts [dumps] on the sample envelopes and rejects
    every other text. *)
Definition loads (s : string) : option pyval :=
  List.find (fun v => String.eqb (dumps v) s) samples.

Definition message_to (destination : string) (extra : list (string * string))
    (envelope : pyval) : Message :=
  {| headers := list_to_map (("destination", destination) :: extra);
     body := dumps envelope |}.

(** A session that connected at the first attempt and drew the token
    [ABCDEFGH12345678]. *)
Definition connected : JSONRPCStomp :=
  default JSONRPCStomp_init
          (connect JSONRPCStomp_init [true] "ABCDEFGH12345678").

Definition reply_topic : string := "/topic/reply-ABCDEFGH12345678".

Definition echo : kwhandler := fun kwargs => Return (Json (PDict kwargs)).
Definition raises : kwhandler := fun _ => Raise (HandlerError "boom").
Definition on_success : callback := fun v => Return v.
Definition on_error : callback := fun _ => Return PNone.

(** The connected session after [accept_calls('echo', h)], and after
    [accept_notifications('ping', h)]. *)
Definition serving (h : kwhandler) : JSONRPCStomp :=
  fst (accept_calls connected (PStr "echo") h).

Definition listening (h : kwhandler) : JSONRPCStomp :=
  fst (accept_notifications connected (PStr "ping") h).

Definition job_to_echo (envelope : pyval) : Message :=
  message_to "/topic/req.local.echo" [("reply-to", reply_topic)] envelope.

End Sample.

(** ** The token of [connect] and the decoding of job parameters *)

(** [string.ascii_uppercase + string.digits] *)
Definition TOKEN_ALPHABET : string := "ABCDEFGHIJKLMNOPQRSTUVWXYZ0123456789".

(** [random.choice(seq)], given the index it draws; [None] stands for the
    [IndexError] of an index outside [seq]. *)
Definition choice (seq : string) (i : nat) : option Ascii.ascii :=
  String.get i seq.

(** The sixteen choices of [connect] joined in order; [draw x] is the
    index drawn at iteration [x] of [range(16)]. *)
Definition random_string (draw : nat → nat) : option string :=
  foldr (λ x rest,
           match choice TOKEN_ALPHABET (draw x), rest with
           | Some c, Some s => Some (String c s)
           | _, _ => None
           end)
        (Some EmptyString) (seq 0 16).

(** [connect] with its draws as input: the retry loop, then the token,
    the reply topic, its subscription and the flag.  [connect] above is
    this method with the token already drawn.  [None] is a loop that is
    still retrying (or the [IndexError] of a draw outside the alphabet,
    which [random.choice] never makes). *)
Definition connect_drawing (self : JSONRPCStomp) (attempts : list bool)
    (draw : nat → nat) : option JSONRPCStomp :=
  match connect_loop self attempts with
  | None => None
  | Some self =>
    match random_string draw with
    | None => None
    | Some random_string =>
      let self := set_reply_to_topic self (PREFIX_REPLY +:+ random_string) in
      let self := subscribe self (PREFIX_REPLY +:+ random_string) ACK_CLIENT in
      Some (set_is_connected self true)
    end
  end.

(** The test [len(rpco.params)>0] of the job branch and the two ways it
    sets [params]. *)
Definition decode_params (json_loads : string → option pyval) (p : pyval)
    : outcome pyval :=
  match py_len p with
  | Raise e => Raise e
  | Return n => if (0 <? n)%Z then loads_value json_loads p else Return (PDict [])
  end.

(** ** Envelopes of a complete exchange *)

Module Exchange.

(** [{"jsonrpc": "2.0", "method": "echo", "id": 1, "params": "{}"}]: the
    parameters are the JSON text of an empty object. *)
Definition request : pyval :=
  PDict [Sample.version; ("method", PStr "echo"); ("id", PInt 1);
         ("params", PStr "{}")].

(** [{"jsonrpc": "2.0", "id": 1, "result": {}}] *)
Definition response : pyval := success_response (PInt 1) (PDict []).

(** [{"jsonrpc": "2.0", "id": 1, "result": null}] *)
Definition response_none : pyval := success_response (PInt 1) PNone.

(** [{"jsonrpc": "2.0", "method": "echo", "id": 1, "params": {"x": 2}}] *)
Definition request_with_dict : pyval :=
  PDict [Sample.version; ("method", PStr "echo"); ("id", PInt 1);
         ("params", PDict [("x", PInt 2)])].

(** [{"jsonrpc": "2.0", "method": "ping", "params": {"x": 2}}] *)
Definition notice : pyval :=
  PDict [Sample.version; ("method", PStr "ping");
         ("params", PDict [("x", PInt 2)])].

(** [{"jsonrpc": "2.0", "id": 1}] *)
Definition bare_id : pyval := PDict [Sample.version; ("id", PInt 1)].

(** [{"jsonrpc": "2.0", "id": null, "result": 5}] *)
Definition null_id : pyval :=
  PDict [Sample.version; ("id", PNone); ("result", PInt 5)].

(** [{"jsonrpc": "2.0", "id": 7, "result": 5}] *)
Definition reply_7 : pyval :=
  PDict [Sample.version; ("id", PInt 7); ("result", PInt 5)].

Definition table : list pyval :=
  [request; response; response_none; request_with_dict; notice; bare_id;
   null_id; reply_7; PDict []; PList [PInt 1]; Sample.reply_ok;
   Sample.reply_error].

(** A decoder that inverts [Sample.dumps] on [table] and rejects every
    other text. *)
Definition loads (s : string) : option pyval :=
  List.find (fun v => String.eqb (Sample.dumps v) s) table.

(** A second session, with its own token, that serves [echo] with [h]. *)
Definition server (h : kwhandler) : JSONRPCStomp :=
  fst (accept_calls
         (default JSONRPCStomp_init
                  (connect JSONRPCStomp_init [false; true] "ZYXWVUTS87654321"))
         (PStr "echo") h).

Definition returns_none : kwhandler := fun _ => Return (Json PNone).

(** A handler whose result [json.dumps] rejects. *)
Definition returns_a_set : kwhandler := fun _ => Return (NotJson "set([1])").

(** The index drawn at each iteration for the token [ABCDEFGH12345678]. *)
Definition draws (x : nat) : nat :=
  nth x [0; 1; 2; 3; 4; 5; 6; 7; 27; 28; 29; 30; 31; 32; 33; 34]%nat 0%nat.

End Exchange.

(** * Properties *)

(** ** Strings and dicts *)

Lemma prefix_app (p s : string) : String.prefix p (p +:+ s) = true.
Proof.
  induction p as [|a p IH]; simpl.
  - by destruct s.
  - destruct (Ascii.ascii_dec a a) as [_|Hne]; [exact IH | by destruct Hne].
Qed.

Lemma prefix_inv (p s : string) :
  String.prefix p s = true → ∃ t, s = p +:+ t.
Proof.
  revert s. induction p as [|a p IH]; intros s H.
  - by exists s.
  - destruct s as [|b s]; simpl in H; [done|].
    destruct (Ascii.ascii_dec a b) as [->|]; [|done].
    destruct (IH s H) as [t ->]. by exists t.
Qed.

Lemma drop_chars_app (p s : string) :
  drop_chars (String.length p) (p +:+ s) = s.
Proof. induction p as [|a p IH]; simpl; [by destruct s | exact IH]. Qed.

Lemma startswith_app (p s : string) : startswith (p +:+ s) p = true.
Proof. apply prefix_app. Qed.

(** Stripping: when the destination starts with the separator, what
    [partition] leaves last is the rest of the destination. *)
Lemma partition_last_app (p s : string) : partition_last p (p +:+ s) = s.
Proof.
  destruct p as [|a p].
  - destruct s; reflexivity.
  - change (partition_last (String a p) (String a p +:+ s))
      with (if String.prefix (String a p) (String a p +:+ s)
            then drop_chars (String.length (String a p)) (String a p +:+ s)
            else partition_last (String a p) (p +:+ s)).
    rewrite (prefix_app (String a p) s).
    apply (drop_chars_app (String a p)).
Qed.

(** The job prefix and the reply prefix part ways at their tenth
    character, so the two [if]s of the classifier never both fire. *)
Lemma job_prefix_not_reply (destination : string) :
  startswith destination PREFIX_TOPIC_JOB = true →
  startswith destination PREFIX_REPLY = false.
Proof.
  intros H. destruct (prefix_inv _ _ H) as [t ->]. reflexivity.
Qed.

Lemma dict_mem_false_get (d : list (string * pyval)) (k : string) :
  dict_mem d k = false → dict_get d k = PNone.
Proof.
  induction d as [|[k' v] d IH]; simpl; [done|].
  destruct (String.eqb k' k); [done | exact IH].
Qed.

Lemma is_None_false (v : pyval) : is_None v = false ↔ v ≠ PNone.
Proof. destruct v; simpl; split; congruence. Qed.

(** ** The classifier *)

Section Classifier.

Variable json_loads : string → option pyval.

Lemma init_classify message d :
  json_loads (body message) = Some (PDict d) →
  JSONRPCObject_init json_loads message =
  classify (headers message !! "destination") (headers message) (envelope d).
Proof. intros Hd. unfold JSONRPCObject_init. by rewrite Hd. Qed.

Lemma init_notification message d destination :
  headers message !! "destination" = Some destination →
  json_loads (body message) = Some (PDict d) →
  dict_get d JSONRPC_KEY_ID = PNone →
  JSONRPCObject_init json_loads message =
  Return (set_notification (set_message_type (envelope d) MSG_TYPE_NOT)
            (partition_last PREFIX_TOPIC_MESSAGE destination)).
Proof.
  intros Hdest Hd Hid. rewrite (init_classify _ _ Hd), Hdest.
  unfold classify. cbn [_id envelope]. by rewrite Hid.
Qed.

Lemma init_job message d destination :
  headers message !! "destination" = Some destination →
  json_loads (body message) = Some (PDict d) →
  dict_get d JSONRPC_KEY_ID ≠ PNone →
  startswith destination PREFIX_TOPIC_JOB = true →
  JSONRPCObject_init json_loads message =
  Return (set_reply_to
            (set_method (set_message_type (envelope d) MSG_TYPE_JOB)
               (PStr (partition_last PREFIX_TOPIC_JOB destination)))
            (headers message !! JSONRPC_KEY_REPLY_TO)).
Proof.
  intros Hdest Hd Hid Hjob. rewrite (init_classify _ _ Hd), Hdest.
  unfold classify. cbn [_id envelope].
  apply is_None_false in Hid. rewrite Hid, Hjob.
  by rewrite (job_prefix_not_reply _ Hjob).
Qed.

Lemma init_reply message d destination :
  headers message !! "destination" = Some destination →
  json_loads (body message) = Some (PDict d) →
  dict_get d JSONRPC_KEY_ID ≠ PNone →
  startswith destination PREFIX_REPLY = true →
  JSONRPCObject_init json_loads message =
  Return (set_message_type (envelope d)
            (if is_None (dict_get d JSONRPC_KEY_RESULT)
             then MSG_TYPE_CALLBACK_ERROR else MSG_TYPE_CALLBACK_SUCCESS)).
Proof.
  intros Hdest Hd Hid Hreply. rewrite (init_classify _ _ Hd), Hdest.
  unfold classify. cbn [_id envelope].
  apply is_None_false in Hid. rewrite Hid, Hreply.
  destruct (startswith destination PREFIX_TOPIC_JOB) eqn:Hjob.
  - apply job_prefix_not_reply in Hjob. congruence.
  - cbn [result envelope]. by destruct (is_None (dict_get d JSONRPC_KEY_RESULT)).
Qed.

(** C4.  A message whose envelope has no [id] member is classified as a
    notification whatever its destination is, and its notification name
    is what [partition] leaves after the notification-topic prefix: the
    rest of the destination when the destination starts with that
    prefix. *)
Theorem C4_absent_id_is_notification message d destination :
  headers message !! "destination" = Some destination →
  json_loads (body message) = Some (PDict d) →
  dict_mem d JSONRPC_KEY_ID = false →
  ∃ rpco,
    JSONRPCObject_init json_loads message = Return rpco
    ∧ message_type rpco = Some MSG_TYPE_NOT
    ∧ is_notification rpco = Return true
    ∧ notification rpco = Some (partition_last PREFIX_TOPIC_MESSAGE destination)
    ∧ (∀ name, destination = PREFIX_TOPIC_MESSAGE +:+ name →
               notification rpco = Some name).
Proof.
  intros Hdest Hd Hid. apply dict_mem_false_get in Hid.
  eexists. split; [exact (init_notification _ _ _ Hdest Hd Hid)|].
  repeat split. intros name ->. cbn [notification set_notification].
  by rewrite partition_last_app.
Qed.

(** C5, as the code has it.  A message whose envelope has an [id] other
    than null and whose destination starts with the reply-topic prefix is
    classified as a success callback when its [result] is present and is
    not null, and as an error callback otherwise. *)
Theorem C5_reply_kind_by_result message d destination :
  headers message !! "destination" = Some destination →
  json_loads (body message) = Some (PDict d) →
  dict_get d JSONRPC_KEY_ID ≠ PNone →
  startswith destination PREFIX_REPLY = true →
  ∃ rpco,
    JSONRPCObject_init json_loads message = Return rpco
    ∧ message_type rpco =
        Some (if dict_mem d JSONRPC_KEY_RESULT
                 && negb (is_None (dict_get d JSONRPC_KEY_RESULT))
              then MSG_TYPE_CALLBACK_SUCCESS else MSG_TYPE_CALLBACK_ERROR)
    ∧ is_callback rpco = Return true.
Proof.
  intros Hdest Hd Hid Hreply.
  eexists. split; [exact (init_reply _ _ _ Hdest Hd Hid Hreply)|].
  cbn [message_type set_message_type].
  destruct (dict_mem d JSONRPC_KEY_RESULT) eqn:Hmem.
  - by destruct (is_None (dict_get d JSONRPC_KEY_RESULT)).
  - by rewrite (dict_mem_false_get _ _ Hmem).
Qed.

(** C10.  A reply whose [result] member is an explicit JSON null is
    classified as an error callback, and the object built from it is the
    one built from the same envelope without the [result] member. *)
Theorem C10_null_result_is_callback_error message d destination :
  headers message !! "destination" = Some destination →
  json_loads (body message) = Some (PDict d) →
  dict_get d JSONRPC_KEY_ID ≠ PNone →
  startswith destination PREFIX_REPLY = true →
  dict_mem d JSONRPC_KEY_RESULT = true →
  dict_get d JSONRPC_KEY_RESULT = PNone →
  ∃ rpco,
    JSONRPCObject_init json_loads message = Return rpco
    ∧ message_type rpco = Some MSG_TYPE_CALLBACK_ERROR
    ∧ ∀ message' d',
        headers message' = headers message →
        json_loads (body message') = Some (PDict d') →
        dict_mem d' JSONRPC_KEY_RESULT = false →
        (∀ k, k ≠ JSONRPC_KEY_RESULT → dict_get d' k = dict_get d k) →
        JSONRPCObject_init json_loads message' = Return rpco.
Proof.
  intros Hdest Hd Hid Hreply _ Hnull.
  eexists. split; [exact (init_reply _ _ _ Hdest Hd Hid Hreply)|].
  rewrite Hnull. split; [done|].
  intros message' d' Hh Hd' Hmem Hsame.
  assert (Hid' : dict_get d' JSONRPC_KEY_ID ≠ PNone)
    by (rewrite Hsame; [done | discriminate]).
  rewrite <- Hh in Hdest.
  rewrite (init_reply _ _ _ Hdest Hd' Hid' Hreply).
  rewrite (dict_mem_false_get _ _ Hmem). cbn [is_None].
  unfold envelope. rewrite (dict_mem_false_get _ _ Hmem), Hnull.
  by rewrite !Hsame by discriminate.
Qed.

End Classifier.

(** ** The classifier on the sample envelopes *)

Lemma C4_witness :
  ∃ rpco,
    JSONRPCObject_init Sample.loads
      (Sample.message_to "/topic/msg.local.ping" [] Sample.ping) = Return rpco
    ∧ message_type rpco = Some MSG_TYPE_NOT
    ∧ is_notification rpco = Return true
    ∧ notification rpco =
        Some (partition_last PREFIX_TOPIC_MESSAGE "/topic/msg.local.ping")
    ∧ (∀ name, "/topic/msg.local.ping" = PREFIX_TOPIC_MESSAGE +:+ name →
               notification rpco = Some name).
Proof.
  apply (C4_absent_id_is_notification Sample.loads
           (Sample.message_to "/topic/msg.local.ping" [] Sample.ping)
           [Sample.version; ("method", PStr "ping"); ("params", PDict [])]
           "/topic/msg.local.ping");
    vm_compute; reflexivity.
Defined.

(** C5 as stated fails on a reply whose [result] member is present and
    null: the envelope has an [id], the destination starts with the
    reply-topic prefix, the [result] member is there, and the message is
    classified as an error callback. *)
Lemma C5_present_null_result_counterexample :
  let message := Sample.message_to Sample.reply_topic [] Sample.reply_null in
  ∃ d rpco,
    Sample.loads (body message) = Some (PDict d)
    ∧ headers message !! "destination" = Some Sample.reply_topic
    ∧ startswith Sample.reply_topic PREFIX_REPLY = true
    ∧ dict_mem d JSONRPC_KEY_ID = true
    ∧ dict_mem d JSONRPC_KEY_RESULT = true
    ∧ JSONRPCObject_init Sample.loads message = Return rpco
    ∧ message_type rpco = Some MSG_TYPE_CALLBACK_ERROR
    ∧ message_type rpco ≠ Some MSG_TYPE_CALLBACK_SUCCESS.
Proof.
  eexists _, _. repeat split; try (vm_compute; reflexivity).
  vm_compute. discriminate.
Qed.

Lemma C5_witness :
  ∃ rpco,
    JSONRPCObject_init Sample.loads
      (Sample.message_to Sample.reply_topic [] Sample.reply_ok) = Return rpco
    ∧ message_type rpco = Some MSG_TYPE_CALLBACK_SUCCESS
    ∧ is_callback rpco = Return true.
Proof.
  apply (C5_reply_kind_by_result Sample.loads
           (Sample.message_to Sample.reply_topic [] Sample.reply_ok)
           [Sample.version; ("id", PInt 1); ("result", PInt 5)]
           Sample.reply_topic);
    vm_compute; (reflexivity || discriminate).
Defined.

Lemma C10_witness :
  ∃ rpco,
    JSONRPCObject_init Sample.loads
      (Sample.message_to Sample.reply_topic [] Sample.reply_null) = Return rpco
    ∧ message_type rpco = Some MSG_TYPE_CALLBACK_ERROR
    ∧ ∀ message' d',
        headers message' =
          headers (Sample.message_to Sample.reply_topic [] Sample.reply_null) →
        Sample.loads (body message') = Some (PDict d') →
        dict_mem d' JSONRPC_KEY_RESULT = false →
        (∀ k, k ≠ JSONRPC_KEY_RESULT →
           dict_get d' k =
           dict_get [Sample.version; ("id", PInt 1); ("result", PNone)] k) →
        JSONRPCObject_init Sample.loads message' = Return rpco.
Proof.
  apply (C10_null_result_is_callback_error Sample.loads
           (Sample.message_to Sample.reply_topic [] Sample.reply_null)
           [Sample.version; ("id", PInt 1); ("result", PNone)]
           Sample.reply_topic);
    vm_compute; (reflexivity || discriminate).
Defined.

(** ** What message processing leaves alone *)

Section Dispatch.

Variable json_loads : string → option pyval.
Variable json_dumps : pyval → string.

Abbreviation process := (_process_message json_loads json_dumps).

Lemma same_tables_refl s : same_tables s s.
Proof. by repeat split. Qed.

Lemma same_tables_trans s1 s2 s3 :
  same_tables s1 s2 → same_tables s2 s3 → same_tables s1 s3.
Proof.
  unfold same_tables. intros (?&?&?&?&?&?&?) (?&?&?&?&?&?&?).
  repeat split; congruence.
Qed.

Lemma same_tables_emit s e : same_tables s (emit s e).
Proof. by repeat split. Qed.

Lemma same_tables_set_listen s b : same_tables s (set_listen s b).
Proof. by repeat split. Qed.

Create HintDb frame.

#[local] Hint Resolve same_tables_refl same_tables_emit
  same_tables_set_listen : frame.

Lemma job_try_frame self rpco :
  same_tables self (fst (job_try json_loads json_dumps self rpco)).
Proof.
  unfold job_try, put. repeat case_match; cbn [fst]; eauto with frame.
  all: by repeat split.
Qed.

Lemma process_job_frame self rpco :
  same_tables self (fst (process_job json_loads json_dumps self rpco)).
Proof.
  unfold process_job.
  pose proof (job_try_frame self rpco) as H.
  destruct (job_try json_loads json_dumps self rpco) as [s [[]|e]];
    cbn [fst] in *; [done|].
  eapply same_tables_trans; [exact H|]. unfold put. eauto with frame.
Qed.

Lemma process_notification_frame self rpco :
  same_tables self (fst (process_notification self rpco)).
Proof.
  unfold process_notification. repeat case_match; cbn [fst]; eauto with frame.
Qed.

Lemma fire_frame self table id arg :
  same_tables self (fst (fire self table id arg)).
Proof. unfold fire. repeat case_match; cbn [fst]; eauto with frame. Qed.

Lemma process_callback_frame self rpco :
  same_tables self (fst (process_callback self rpco)).
Proof.
  unfold process_callback.
  repeat case_match; cbn [fst]; eauto using fire_frame with frame.
Qed.

(** Processing a message changes nothing but [listen] and the log. *)
Lemma process_message_frame self message :
  same_tables self (fst (process self message)).
Proof.
  unfold _process_message.
  repeat case_match; cbn [fst];
    eauto using process_job_frame, process_notification_frame,
      process_callback_frame with frame.
Qed.

Lemma run_loop_frame inputs self :
  same_tables self (fst (run_loop json_loads json_dumps self inputs)).
Proof.
  revert self. induction inputs as [|[message|] rest IH]; intros self;
    cbn [run_loop]; destruct (listen self); cbn [fst]; eauto with frame.
  - pose proof (process_message_frame self message) as H.
    destruct (process self message) as [s [[]|e]]; cbn [fst] in *; [|done].
    eapply same_tables_trans; [exact H | apply IH].
  - eapply same_tables_trans; [|apply IH]. eauto with frame.
Qed.

Lemma run_frame inputs self :
  same_tables self (fst (run json_loads json_dumps self inputs)).
Proof.
  unfold run. eapply same_tables_trans; [|apply run_loop_frame].
  eauto with frame.
Qed.

End Dispatch.

(** ** Programs: the counter and the correlation tables *)

Section Programs.

Variable json_loads : string → option pyval.
Variable json_dumps : pyval → string.

Abbreviation process := (_process_message json_loads json_dumps).
Abbreviation step := (exec json_loads json_dumps).
Abbreviation steps := (exec_all json_loads json_dumps).
Abbreviation ids := (call_ids json_loads json_dumps).

Lemma connect_loop_frame attempts self s' :
  connect_loop self attempts = Some s' → same_tables self s'.
Proof.
  revert self. induction attempts as [|[] rest IH]; intros self H;
    cbn [connect_loop] in H.
  - done.
  - injection H as <-. by repeat split.
  - apply IH in H. eapply same_tables_trans; [|exact H]. by repeat split.
Qed.

(** [connect] touches the reply topic, the connected flag and the log. *)
Lemma connect_spec self attempts random_string s' :
  connect self attempts random_string = Some s' →
  last_id s' = last_id self
  ∧ callbacks_success s' = callbacks_success self
  ∧ callbacks_error s' = callbacks_error self
  ∧ reply_to_topic s' = Some (PREFIX_REPLY +:+ random_string)
  ∧ is_connected s' = true.
Proof.
  unfold connect. destruct (connect_loop self attempts) as [s|] eqn:Hloop; [|done].
  apply connect_loop_frame in Hloop as (?&?&?&?&?&?&?).
  intros [= <-]. by repeat split.
Qed.

Lemma call_spec self m p cs ce :
  let s' := fst (call json_dumps self m p cs ce) in
  last_id s' = trans_id self
  ∧ callbacks_success s' = <[trans_id self := cs]> (callbacks_success self)
  ∧ callbacks_error s' = <[trans_id self := ce]> (callbacks_error self)
  ∧ reply_to_topic s' = reply_to_topic self.
Proof.
  unfold call. repeat case_match; by repeat split.
Qed.

(** A step other than [call] leaves the counter and both correlation
    tables as they are, and only [connect] assigns the reply topic. *)
Lemma step_other self o s' :
  is_call o = false → step self o = Some s' →
  last_id s' = last_id self
  ∧ callbacks_success s' = callbacks_success self
  ∧ callbacks_error s' = callbacks_error self
  ∧ (reply_to_topic s' = reply_to_topic self
     ∨ ∃ token, reply_to_topic s' = Some (PREFIX_REPLY +:+ token)).
Proof.
  destruct o as [attempts rnd| |m cb|m cb|m p|m p cs ce|message|inputs];
    cbn [is_call exec]; intros Hc H; try done.
  - apply connect_spec in H as (?&?&?&?&?). repeat split; eauto.
  - injection H as <-. repeat split; eauto.
  - injection H as <-. unfold accept_notifications.
    repeat case_match; repeat split; eauto.
  - injection H as <-. unfold accept_calls.
    repeat case_match; repeat split; eauto.
  - injection H as <-. unfold notify.
    repeat case_match; repeat split; eauto.
  - injection H as <-.
    destruct (process_message_frame json_loads json_dumps self message)
      as (?&?&?&?&?&?&?). repeat split; eauto.
  - injection H as <-.
    destruct (run_frame json_loads json_dumps inputs self)
      as (?&?&?&?&?&?&?). repeat split; eauto.
Qed.

Lemma step_last_id self o s' :
  step self o = Some s' →
  last_id s' = if is_call o then trans_id self else last_id self.
Proof.
  destruct (is_call o) eqn:Hc; intros H.
  - destruct o; try done. injection H as <-. apply call_spec.
  - by apply (step_other _ _ _ Hc) in H as (?&_).
Qed.

(** The ids handed out from any session on are consecutive, beginning
    with the [trans_id] of that session. *)
Lemma call_ids_consecutive program self :
  ids self program =
  seqZ (trans_id self) (Z.of_nat (length (ids self program))).
Proof.
  revert self. induction program as [|o rest IH]; intros self; [done|].
  cbn [call_ids]. destruct (step self o) as [s'|] eqn:Hstep.
  - pose proof (step_last_id _ _ _ Hstep) as Hid.
    destruct o; cbn [is_call app] in *;
      try (rewrite (IH s') at 1; unfold trans_id; by rewrite Hid).
    cbn [length]. rewrite seqZ_cons by lia. f_equal.
    rewrite (IH s') at 1. unfold trans_id at 1. rewrite Hid.
    f_equal; lia.
  - destruct o; try done.
Qed.

Lemma seqZ_sorted m k : StronglySorted Z.lt (seqZ m (Z.of_nat k)).
Proof.
  revert m. induction k as [|k IH]; intros m.
  - rewrite seqZ_nil by done. constructor.
  - rewrite seqZ_cons by lia.
    replace (Z.pred (Z.of_nat (S k))) with (Z.of_nat k) by lia.
    constructor; [apply IH|]. apply Forall_seqZ. lia.
Qed.

(** C6.  Within one session the counter starts at 0 and [call] uses the
    incremented value, so the ids handed out by the successive calls of
    any program (whatever else it does in between: reconnecting,
    registering, notifying, processing messages) are 1, 2, 3, ...:
    strictly increasing and never repeated.  Neither [connect] nor
    [disconnect] changes the counter. *)
Theorem C6_correlation_ids_strictly_increase program :
  last_id JSONRPCStomp_init = 0
  ∧ ids JSONRPCStomp_init program =
      seqZ 1 (Z.of_nat (length (ids JSONRPCStomp_init program)))
  ∧ StronglySorted Z.lt (ids JSONRPCStomp_init program)
  ∧ NoDup (ids JSONRPCStomp_init program)
  ∧ (∀ self m p cs ce,
       last_id (fst (call json_dumps self m p cs ce)) = last_id self + 1
       ∧ callbacks_success (fst (call json_dumps self m p cs ce))
           !! (last_id self + 1) = Some cs
       ∧ callbacks_error (fst (call json_dumps self m p cs ce))
           !! (last_id self + 1) = Some ce)
  ∧ (∀ self attempts random_string,
       from_option last_id (last_id self)
         (connect self attempts random_string) = last_id self)
  ∧ (∀ self, last_id (disconnect self) = last_id self).
Proof.
  pose proof (call_ids_consecutive program JSONRPCStomp_init) as Hids.
  change (trans_id JSONRPCStomp_init) with 1 in Hids.
  split; [done|]. split; [exact Hids|].
  split; [rewrite Hids; apply seqZ_sorted|].
  split; [rewrite Hids; apply NoDup_seqZ|].
  split; [|split].
  - intros self m p cs ce.
    destruct (call_spec self m p cs ce) as (Hid & Hcs & Hce & _).
    cbn zeta in *. rewrite Hid, Hcs, Hce. unfold trans_id.
    by rewrite !lookup_insert_eq.
  - intros self attempts random_string.
    destruct (connect self attempts random_string) as [s'|] eqn:H; [|done].
    by apply connect_spec in H as (?&_).
  - done.
Qed.

Lemma step_keys_bounded self o s' :
  keys_bounded self → step self o = Some s' →
  keys_bounded s'
  ∧ size (callbacks_success s') =
      (size (callbacks_success self) + (if is_call o then 1 else 0))%nat
  ∧ size (callbacks_error s') =
      (size (callbacks_error self) + (if is_call o then 1 else 0))%nat.
Proof.
  intros [Hcs Hce] Hstep. destruct (is_call o) eqn:Hc.
  - destruct o as [| | | | |m p cs ce| |]; try done.
    injection Hstep as <-.
    destruct (call_spec self m p cs ce) as (Hid & Hs & He & _).
    cbn zeta in *. unfold keys_bounded. rewrite Hid, Hs, He.
    assert (callbacks_success self !! trans_id self = None) as Hfs.
    { apply eq_None_not_Some. intros H%Hcs. unfold trans_id in H. lia. }
    assert (callbacks_error self !! trans_id self = None) as Hfe.
    { apply eq_None_not_Some. intros H%Hce. unfold trans_id in H. lia. }
    rewrite !map_size_insert_None by done.
    repeat split; try lia.
    + intros k. destruct (decide (trans_id self = k)) as [<-|Hne]; [lia|].
      rewrite lookup_insert_ne by done. intros H%Hcs. unfold trans_id. lia.
    + intros k. destruct (decide (trans_id self = k)) as [<-|Hne]; [lia|].
      rewrite lookup_insert_ne by done. intros H%Hce. unfold trans_id. lia.
  - apply (step_other _ _ _ Hc) in Hstep as (Hid & Hs & He & _).
    unfold keys_bounded. rewrite Hid, Hs, He.
    repeat split; auto with lia.
Qed.

Lemma steps_keys_bounded program self s' :
  keys_bounded self → steps self program = Some s' →
  keys_bounded s'
  ∧ size (callbacks_success s') =
      (size (callbacks_success self) + length (ids self program))%nat
  ∧ size (callbacks_error s') =
      (size (callbacks_error self) + length (ids self program))%nat.
Proof.
  revert self. induction program as [|o rest IH]; intros self Hb H.
  - injection H as <-. cbn. repeat split; try lia; apply Hb.
  - cbn [exec_all call_ids] in *.
    destruct (step self o) as [s1|] eqn:Hstep; [|done].
    destruct (step_keys_bounded _ _ _ Hb Hstep) as (Hb1 & Hs1 & He1).
    destruct (IH _ Hb1 H) as (Hb' & Hs' & He').
    split; [exact Hb'|]. rewrite Hs', He', Hs1, He1.
    destruct o; cbn [is_call app length]; lia.
Qed.

Lemma init_keys_bounded : keys_bounded JSONRPCStomp_init.
Proof.
  split; intros k [c H]; cbn in H;
    by rewrite (lookup_empty (M := gmap Z)) in H.
Qed.

(** A reply topic, once assigned, starts with the reply prefix. *)
Lemma steps_reply_topic program self s' topic :
  (∀ t, reply_to_topic self = Some t → startswith t PREFIX_REPLY = true) →
  steps self program = Some s' →
  reply_to_topic s' = Some topic → startswith topic PREFIX_REPLY = true.
Proof.
  revert self. induction program as [|o rest IH]; intros self Hinv H.
  - injection H as <-. apply Hinv.
  - cbn [exec_all] in H. destruct (step self o) as [s1|] eqn:Hstep; [|done].
    apply (IH s1); [|exact H]. intros t Ht.
    destruct (is_call o) eqn:Hc.
    + destruct o as [| | | | |m p cs ce| |]; try done.
      injection Hstep as <-.
      destruct (call_spec self m p cs ce) as (_&_&_&Hr).
      cbn zeta in Hr. rewrite Hr in Ht. by apply Hinv.
    + apply (step_other _ _ _ Hc) in Hstep as (_&_&_&[Hr|[token Hr]]).
      * rewrite Hr in Ht. by apply Hinv.
      * rewrite Hr in Ht. injection Ht as <-. apply startswith_app.
Qed.

(** C9.  Dispatching a message, a matching reply included, removes
    nothing from the correlation tables: after [call] and the processing
    of any message both entries made by that call are still there, the
    tables are the ones [call] left, and each holds one entry per call
    the program has made so far. *)
Theorem C9_replies_keep_correlation_entries
    program self m p onS onE message :
  steps JSONRPCStomp_init program = Some self →
  let self1 := fst (call json_dumps self m p onS onE) in
  let self2 := fst (process self1 message) in
  callbacks_success self2 !! trans_id self = Some onS
  ∧ callbacks_error self2 !! trans_id self = Some onE
  ∧ callbacks_success self2 = callbacks_success self1
  ∧ callbacks_error self2 = callbacks_error self1
  ∧ size (callbacks_success self2) =
      S (length (ids JSONRPCStomp_init program))
  ∧ size (callbacks_error self2) =
      S (length (ids JSONRPCStomp_init program)).
Proof.
  intros Hreach self1 self2.
  destruct (steps_keys_bounded _ _ _ init_keys_bounded Hreach)
    as (Hb & Hs & He).
  assert (step self (Call m p onS onE) = Some self1) as Hstep by done.
  destruct (step_keys_bounded _ _ _ Hb Hstep) as (_ & Hs1 & He1).
  destruct (call_spec self m p onS onE) as (_ & Hcs & Hce & _).
  destruct (process_message_frame json_loads json_dumps self1 message)
    as (_ & _ & Hfs & Hfe & _).
  fold self1 in Hcs, Hce. fold self2 in Hfs, Hfe.
  rewrite Hfs, Hfe, Hcs, Hce, !lookup_insert_eq.
  rewrite <- Hcs, <- Hce, Hs1, He1, Hs, He. cbn [is_call].
  change (size (callbacks_success JSONRPCStomp_init)) with 0%nat.
  change (size (callbacks_error JSONRPCStomp_init)) with 0%nat.
  repeat split; lia.
Qed.

(** A step never touches the correlation entries made so far, and never
    lowers the counter. *)
Lemma step_keeps_entries self o s' :
  step self o = Some s' →
  (last_id self ≤ last_id s')%Z
  ∧ ∀ k, (k ≤ last_id self)%Z →
         callbacks_success s' !! k = callbacks_success self !! k
         ∧ callbacks_error s' !! k = callbacks_error self !! k.
Proof.
  intros Hstep. destruct (is_call o) eqn:Hc.
  - destruct o as [| | | | |m p cs ce| |]; try done.
    injection Hstep as <-.
    destruct (call_spec self m p cs ce) as (Hid & Hs & He & _).
    cbn zeta in *. rewrite Hid, Hs, He. unfold trans_id.
    split; [lia|]. intros k Hk.
    by rewrite !lookup_insert_ne by lia.
  - apply (step_other _ _ _ Hc) in Hstep as (Hid & Hs & He & _).
    rewrite Hid, Hs, He. split; [lia | done].
Qed.

Lemma steps_keep_entries program self s' :
  steps self program = Some s' →
  (last_id self ≤ last_id s')%Z
  ∧ ∀ k, (k ≤ last_id self)%Z →
         callbacks_success s' !! k = callbacks_success self !! k
         ∧ callbacks_error s' !! k = callbacks_error self !! k.
Proof.
  revert self. induction program as [|o rest IH]; intros self H.
  - injection H as <-. split; [lia | done].
  - cbn [exec_all] in H. destruct (step self o) as [s1|] eqn:Hstep; [|done].
    destruct (step_keeps_entries _ _ _ Hstep) as (Hle1 & Hk1).
    destruct (IH _ H) as (Hle & Hk).
    split; [lia|]. intros k Hkb.
    destruct (Hk k) as [-> ->]; [lia|]. by apply Hk1.
Qed.

Lemma present_and_not_null (d : list (string * pyval)) (k : string) :
  dict_mem d k && negb (is_None (dict_get d k)) = negb (is_None (dict_get d k)).
Proof.
  destruct (dict_mem d k) eqn:Hm; [done|].
  by rewrite (dict_mem_false_get _ _ Hm).
Qed.

(** C1, as the code has it.  On a session that has a reply topic,
    [call] returns after publishing, with the reply topic in the
    [reply-to] header, an envelope whose id is the counter plus one.
    Whatever the program does with the session afterwards (further
    calls included), processing a reply that arrives on that reply topic
    with that id calls exactly one callback of that call, once:
    [callback_success] on the reply's [result] when the reply has a
    [result] that is not null, [callback_error] on the reply's [error]
    otherwise. *)
Theorem C1_reply_invokes_callback_once
    program self topic m p onS onE later self2 message d :
  steps JSONRPCStomp_init program = Some self →
  reply_to_topic self = Some topic →
  steps (fst (call json_dumps self (PStr m) p onS onE)) later = Some self2 →
  headers message !! "destination" = Some topic →
  body message ≠ MSG_QUIT →
  json_loads (body message) = Some (PDict d) →
  dict_get d JSONRPC_KEY_ID = PInt (last_id self + 1) →
  snd (call json_dumps self (PStr m) p onS onE) = Return tt
  ∧ transport_log (fst (call json_dumps self (PStr m) p onS onE)) =
      (transport_log self ++
       [EvPut (json_dumps
                 (PDict [("jsonrpc", PStr "2.0");
                         ("method", PStr m);
                         ("id", PInt (last_id self + 1));
                         ("params", p)]))
              (Some (PREFIX_TOPIC_JOB +:+ m))
              [("reply-to", topic)]])%list
  ∧ process self2 message =
      if dict_mem d JSONRPC_KEY_RESULT
         && negb (is_None (dict_get d JSONRPC_KEY_RESULT))
      then (emit self2 (EvCallback onS (dict_get d JSONRPC_KEY_RESULT)),
            ignore_value (onS (dict_get d JSONRPC_KEY_RESULT)))
      else (emit self2 (EvCallback onE (dict_get d JSONRPC_KEY_ERROR)),
            ignore_value (onE (dict_get d JSONRPC_KEY_ERROR))).
Proof.
  intros Hreach Htopic Hlater Hdest Hquit Hd Hid.
  assert (startswith topic PREFIX_REPLY = true) as Hprefix.
  { by apply (steps_reply_topic program JSONRPCStomp_init self). }
  assert (dict_get d JSONRPC_KEY_ID ≠ PNone) as Hsome by (by rewrite Hid).
  assert (call json_dumps self (PStr m) p onS onE =
          (put (set_callbacks (set_last_id self (last_id self + 1))
                  (<[last_id self + 1 := onS]> (callbacks_success self))
                  (<[last_id self + 1 := onE]> (callbacks_error self)))
               (json_dumps
                  (PDict [("jsonrpc", PStr "2.0"); ("method", PStr m);
                          ("id", PInt (last_id self + 1)); ("params", p)]))
               (Some (PREFIX_TOPIC_JOB +:+ m)) [("reply-to", topic)],
           Return tt)) as Hcall.
  { unfold call, trans_id.
    cbn [py_concat reply_to_topic set_callbacks set_last_id].
    by rewrite Htopic. }
  rewrite Hcall in Hlater |- *. cbn [fst snd] in Hlater |- *.
  split; [done|]. split; [done|].
  destruct (steps_keep_entries _ _ _ Hlater) as (_ & Hkeep).
  destruct (Hkeep (last_id self + 1)) as [HS HE]; [cbn; lia|].
  cbn in HS, HE. rewrite lookup_insert_eq in HS, HE.
  rewrite present_and_not_null.
  unfold _process_message.
  apply String.eqb_neq in Hquit. rewrite Hquit.
  rewrite (init_reply _ _ _ _ Hdest Hd Hsome Hprefix).
  destruct (is_None (dict_get d JSONRPC_KEY_RESULT));
    cbn [is_job is_notification is_callback message_type_is message_type
         set_message_type msg_type_eqb process_callback negb];
    unfold fire; cbn [_id result error set_message_type envelope];
    rewrite Hid; cbn [lookup_id]; by rewrite ?HS, ?HE.
Qed.

End Programs.

(** ** The branches of the dispatcher *)

Section Branches.

Variable json_loads : string → option pyval.
Variable json_dumps : pyval → string.

Abbreviation process := (_process_message json_loads json_dumps).

(** A job message reaches [process_job]. *)
Lemma process_job_message self message d destination :
  body message ≠ MSG_QUIT →
  headers message !! "destination" = Some destination →
  json_loads (body message) = Some (PDict d) →
  dict_get d JSONRPC_KEY_ID ≠ PNone →
  startswith destination PREFIX_TOPIC_JOB = true →
  ∃ rpco,
    JSONRPCObject_init json_loads message = Return rpco
    ∧ process self message = process_job json_loads json_dumps self rpco
    ∧ params rpco = dict_get d JSONRPC_KEY_PARAMS
    ∧ method rpco = PStr (partition_last PREFIX_TOPIC_JOB destination)
    ∧ _id rpco = dict_get d JSONRPC_KEY_ID
    ∧ reply_to rpco = headers message !! JSONRPC_KEY_REPLY_TO.
Proof.
  intros Hquit Hdest Hd Hid Hjob. eexists.
  split; [exact (init_job _ _ _ _ Hdest Hd Hid Hjob)|].
  split; [|done].
  unfold _process_message. apply String.eqb_neq in Hquit. rewrite Hquit.
  by rewrite (init_job _ _ _ _ Hdest Hd Hid Hjob).
Qed.

(** When the [try] raises, at most the handler invocation was logged. *)
Lemma job_try_raise self rpco s1 e :
  job_try json_loads json_dumps self rpco = (s1, Raise e) →
  s1 = self ∨ ∃ h kwargs, s1 = emit self (EvInvoke h kwargs).
Proof.
  unfold job_try. repeat case_match; intros [= <- <-]; eauto.
Qed.

(** C3.  When anything in the [try] of the job branch raises (the length
    test or the decoding of [params], the lookup or the call of the
    handler), processing the job returns normally and publishes exactly
    one message: the envelope with the job's [id] and the error of code
    -32603 and message [Internal error], sent to the destination named
    by the job's [reply-to] header. *)
Theorem C3_job_failure_publishes_internal_error
    self message d destination rpco s1 e :
  body message ≠ MSG_QUIT →
  headers message !! "destination" = Some destination →
  json_loads (body message) = Some (PDict d) →
  dict_get d JSONRPC_KEY_ID ≠ PNone →
  startswith destination PREFIX_TOPIC_JOB = true →
  JSONRPCObject_init json_loads message = Return rpco →
  job_try json_loads json_dumps self rpco = (s1, Raise e) →
  let reply :=
    EvPut (json_dumps
             (PDict [("jsonrpc", PStr "2.0");
                     ("id", dict_get d "id");
                     ("error", PDict [("code", PInt (-32603));
                                      ("message", PStr "Internal error")])]))
          (headers message !! "reply-to") [] in
  ∃ s2 new,
    process self message = (s2, Return tt)
    ∧ transport_log s2 = (transport_log self ++ new)%list
    ∧ List.filter is_put new = [reply].
Proof.
  intros Hquit Hdest Hd Hid Hjob Hinit Htry reply.
  destruct (process_job_message self _ _ _ Hquit Hdest Hd Hid Hjob)
    as (rpco' & Hinit' & Hproc & _ & _ & Hrid & Hrto).
  assert (rpco' = rpco) as -> by congruence.
  rewrite Hproc. unfold process_job. rewrite Htry.
  unfold error_response, internal_error. rewrite Hrid, Hrto.
  destruct (job_try_raise _ _ _ _ Htry) as [->|(h & kwargs & ->)].
  - eexists _, [reply]. by repeat split.
  - eexists _, [EvInvoke h kwargs; reply]. repeat split.
    cbn. by rewrite <- app_assoc.
Qed.

(** The ways the [try] can fail before the handler runs, and in it. *)
Lemma job_try_absent_params self rpco :
  params rpco = PNone →
  job_try json_loads json_dumps self rpco = (self, Raise TypeError).
Proof. intros H. unfold job_try. by rewrite H. Qed.

Lemma job_try_unregistered self rpco name :
  params rpco = PDict [] → method rpco = PStr name →
  methods self !! name = None →
  job_try json_loads json_dumps self rpco = (self, Raise KeyError).
Proof.
  intros Hp Hm Hnone. unfold job_try, lookup_name.
  rewrite Hp, Hm. change (py_len (PDict [])) with (Return 0 : outcome Z).
  cbn [Z.ltb Z.compare]. by rewrite Hnone.
Qed.

Lemma job_try_handler_raises self rpco name h e :
  params rpco = PDict [] → method rpco = PStr name →
  methods self !! name = Some h → h [] = Raise e →
  job_try json_loads json_dumps self rpco =
  (emit self (EvInvoke h []), Raise e).
Proof.
  intros Hp Hm Hh He. unfold job_try, lookup_name.
  rewrite Hp, Hm. change (py_len (PDict [])) with (Return 0 : outcome Z).
  cbn [Z.ltb Z.compare]. rewrite Hh. cbn [py_kwargs]. by rewrite He.
Qed.

(** A job whose [params] has length 0 (an empty dict, list or string)
    calls the handler with no arguments and publishes its result. *)
Lemma job_empty_params self message d destination h v :
  body message ≠ MSG_QUIT →
  headers message !! "destination" = Some destination →
  json_loads (body message) = Some (PDict d) →
  dict_get d JSONRPC_KEY_ID ≠ PNone →
  startswith destination PREFIX_TOPIC_JOB = true →
  py_len (dict_get d JSONRPC_KEY_PARAMS) = Return 0 →
  methods self !! partition_last PREFIX_TOPIC_JOB destination = Some h →
  h [] = Return (Json v) →
  process self message =
  (put (emit self (EvInvoke h []))
       (json_dumps (success_response (dict_get d JSONRPC_KEY_ID) v))
       (headers message !! JSONRPC_KEY_REPLY_TO) [],
   Return tt).
Proof.
  intros Hquit Hdest Hd Hid Hjob Hlen Hh Hv.
  destruct (process_job_message self _ _ _ Hquit Hdest Hd Hid Hjob)
    as (rpco & _ & -> & Hp & Hm & Hrid & Hrto).
  unfold process_job, job_try, lookup_name. rewrite Hp, Hlen, Hm.
  cbn [Z.ltb Z.compare]. rewrite Hh.
  cbn [py_kwargs]. by rewrite Hv, Hrid, Hrto.
Qed.

(** A job whose [params] member is absent (or null) never reaches the
    handler: [len(None)] raises and the error envelope is published. *)
Lemma job_absent_params self message d destination :
  body message ≠ MSG_QUIT →
  headers message !! "destination" = Some destination →
  json_loads (body message) = Some (PDict d) →
  dict_get d JSONRPC_KEY_ID ≠ PNone →
  startswith destination PREFIX_TOPIC_JOB = true →
  dict_get d JSONRPC_KEY_PARAMS = PNone →
  process self message =
  (put self (json_dumps (error_response (dict_get d JSONRPC_KEY_ID)))
       (headers message !! JSONRPC_KEY_REPLY_TO) [],
   Return tt).
Proof.
  intros Hquit Hdest Hd Hid Hjob Hnone.
  destruct (process_job_message self _ _ _ Hquit Hdest Hd Hid Hjob)
    as (rpco & _ & -> & Hp & _ & Hrid & Hrto).
  unfold process_job. rewrite job_try_absent_params by congruence.
  by rewrite Hrid, Hrto.
Qed.

(** A notification message reaches [process_notification]. *)
Lemma process_notification_message self message d destination :
  body message ≠ MSG_QUIT →
  headers message !! "destination" = Some destination →
  json_loads (body message) = Some (PDict d) →
  dict_get d JSONRPC_KEY_ID = PNone →
  process self message =
  process_notification self
    (set_notification (set_message_type (envelope d) MSG_TYPE_NOT)
       (partition_last PREFIX_TOPIC_MESSAGE destination)).
Proof.
  intros Hquit Hdest Hd Hid.
  unfold _process_message. apply String.eqb_neq in Hquit. rewrite Hquit.
  by rewrite (init_notification _ _ _ _ Hdest Hd Hid).
Qed.



(** C7, as the code has it.  On a connected session [accept_calls] with
    a [str] name registers the handler and subscribes to the job topic of
    that name with the acknowledgment mode [auto], which is not the
    [client] mode. *)
Theorem C7_accept_calls_subscribes_auto self name cb :
  is_connected self = true →
  accept_calls self (PStr name) cb =
    (subscribe (set_methods self (<[name := cb]> (methods self)))
               (PREFIX_TOPIC_JOB +:+ name) ACK_AUTO,
     Return tt)
  ∧ transport_log (fst (accept_calls self (PStr name) cb)) =
      (transport_log self ++ [EvSubscribe (PREFIX_TOPIC_JOB +:+ name) "auto"])%list
  ∧ methods (fst (accept_calls self (PStr name) cb)) !! name = Some cb
  ∧ ACK_AUTO ≠ ACK_CLIENT.
Proof.
  intros Hc. unfold accept_calls. rewrite Hc. cbn.
  repeat split; [apply lookup_insert_eq | discriminate].
Qed.

End Branches.

(** ** The session on the sample envelopes *)

Lemma C1_witness :
  let call1 :=
    call Sample.dumps Sample.connected (PStr "add")
         (PDict [("x", PInt 2); ("y", PInt 3)])
         Sample.on_success Sample.on_error in
  let later :=
    [Call (PStr "other") PNone Sample.on_error Sample.on_success;
     Disconnect; Connect [false; true] "ZYXWVUTS87654321"] in
  let self2 :=
    default JSONRPCStomp_init
            (exec_all Sample.loads Sample.dumps (fst call1) later) in
  snd call1 = Return tt
  ∧ transport_log (fst call1) =
      (transport_log Sample.connected ++
       [EvPut (Sample.dumps
                 (PDict [("jsonrpc", PStr "2.0");
                         ("method", PStr "add");
                         ("id", PInt (last_id Sample.connected + 1));
                         ("params", PDict [("x", PInt 2); ("y", PInt 3)])]))
              (Some (PREFIX_TOPIC_JOB +:+ "add"))
              [("reply-to", Sample.reply_topic)]])%list
  ∧ _process_message Sample.loads Sample.dumps self2
      (Sample.message_to Sample.reply_topic [] Sample.reply_ok) =
    (emit self2 (EvCallback Sample.on_success (PInt 5)), Return tt).
Proof.
  apply (C1_reply_invokes_callback_once Sample.loads Sample.dumps
           [Connect [true] "ABCDEFGH12345678"] Sample.connected
           Sample.reply_topic "add" (PDict [("x", PInt 2); ("y", PInt 3)])
           Sample.on_success Sample.on_error
           [Call (PStr "other") PNone Sample.on_error Sample.on_success;
            Disconnect; Connect [false; true] "ZYXWVUTS87654321"]
           (default JSONRPCStomp_init
              (exec_all Sample.loads Sample.dumps
                 (fst (call Sample.dumps Sample.connected (PStr "add")
                            (PDict [("x", PInt 2); ("y", PInt 3)])
                            Sample.on_success Sample.on_error))
                 [Call (PStr "other") PNone Sample.on_error Sample.on_success;
                  Disconnect; Connect [false; true] "ZYXWVUTS87654321"]))
           (Sample.message_to Sample.reply_topic [] Sample.reply_ok)
           [Sample.version; ("id", PInt 1); ("result", PInt 5)]);
    vm_compute; (reflexivity || discriminate).
Defined.

(** C1 as stated fails on a reply that carries the id of the call and a
    [result] member whose value is null: the one callback called is
    [callback_error], with [None]; [callback_success] is not called with
    the reply's result. *)
Lemma C1_null_result_counterexample :
  let self1 :=
    fst (call Sample.dumps Sample.connected (PStr "add") (PDict [])
              Sample.on_success Sample.on_error) in
  let message := Sample.message_to Sample.reply_topic [] Sample.reply_null in
  let d := [Sample.version; ("id", PInt 1); ("result", PNone)] in
  reply_to_topic self1 = headers message !! "destination"
  ∧ Sample.loads (body message) = Some (PDict d)
  ∧ dict_get d "id" = PInt (last_id Sample.connected + 1)
  ∧ dict_mem d "result" = true
  ∧ dict_mem d "error" = false
  ∧ _process_message Sample.loads Sample.dumps self1 message =
      (emit self1 (EvCallback Sample.on_error PNone), Return tt)
  ∧ transport_log
      (fst (_process_message Sample.loads Sample.dumps self1 message)) ≠
      (transport_log self1 ++ [EvCallback Sample.on_success PNone])%list.
Proof.
  repeat split; try (vm_compute; reflexivity).
  vm_compute. intros H. injection H as H.
  apply (f_equal (λ f : callback, f (PInt 5))) in H. discriminate H.
Qed.

(** C2 on the code: a job without a [params] member, sent to a session
    that serves [echo].  The handler is not called; the only event is the
    publication of the Internal-error envelope. *)
Lemma C2_absent_params_takes_error_path :
  let self := Sample.serving Sample.echo in
  let message := Sample.job_to_echo Sample.job_without_params in
  Sample.loads (body message) = Some Sample.job_without_params
  ∧ dict_mem [Sample.version; ("method", PStr "echo"); ("id", PInt 1)]
      JSONRPC_KEY_PARAMS = false
  ∧ methods self !! "echo" = Some Sample.echo
  ∧ _process_message Sample.loads Sample.dumps self message =
      (emit self (EvPut (Sample.dumps (error_response (PInt 1)))
                        (Some Sample.reply_topic) []),
       Return tt)
  ∧ _process_message Sample.loads Sample.dumps self
      (Sample.job_to_echo Sample.job_empty_params) =
      (emit (emit self (EvInvoke Sample.echo []))
            (EvPut (Sample.dumps (success_response (PInt 1) (PDict [])))
                   (Some Sample.reply_topic) []),
       Return tt).
Proof. repeat split; vm_compute; reflexivity. Qed.

Lemma C3_witness :
  let self := Sample.serving Sample.raises in
  let message := Sample.job_to_echo Sample.job_empty_params in
  let reply :=
    EvPut (Sample.dumps
             (PDict [("jsonrpc", PStr "2.0");
                     ("id", PInt 1);
                     ("error", PDict [("code", PInt (-32603));
                                      ("message", PStr "Internal error")])]))
          (Some Sample.reply_topic) [] in
  ∃ s2 new,
    _process_message Sample.loads Sample.dumps self message = (s2, Return tt)
    ∧ transport_log s2 = (transport_log self ++ new)%list
    ∧ List.filter is_put new = [reply].
Proof.
  eapply (C3_job_failure_publishes_internal_error Sample.loads Sample.dumps
            (Sample.serving Sample.raises)
            (Sample.job_to_echo Sample.job_empty_params)
            [Sample.version; ("method", PStr "echo"); ("id", PInt 1);
             ("params", PDict [])]
            "/topic/req.local.echo");
    vm_compute; (reflexivity || discriminate).
Defined.

(** C7 as stated fails: registering [echo] on a connected session
    subscribes to the job topic in mode [auto]; no subscription in mode
    [client] to that topic is ever made. *)
Lemma C7_client_ack_counterexample :
  let self := Sample.connected in
  let after := fst (accept_calls self (PStr "echo") Sample.echo) in
  is_connected self = true
  ∧ transport_log after =
      (transport_log self ++ [EvSubscribe "/topic/req.local.echo" "auto"])%list
  ∧ ¬ In (EvSubscribe (PREFIX_TOPIC_JOB +:+ "echo") ACK_CLIENT)
         (transport_log after).
Proof.
  repeat split. vm_compute. intros [H|[H|[H|[]]]]; discriminate H.
Qed.

Lemma C7_witness :
  accept_calls Sample.connected (PStr "echo") Sample.echo =
    (subscribe (set_methods Sample.connected
                  (<["echo" := Sample.echo]> (methods Sample.connected)))
               (PREFIX_TOPIC_JOB +:+ "echo") ACK_AUTO,
     Return tt)
  ∧ transport_log (fst (accept_calls Sample.connected (PStr "echo") Sample.echo)) =
      (transport_log Sample.connected ++
       [EvSubscribe (PREFIX_TOPIC_JOB +:+ "echo") "auto"])%list
  ∧ methods (fst (accept_calls Sample.connected (PStr "echo") Sample.echo))
      !! "echo" = Some Sample.echo
  ∧ ACK_AUTO ≠ ACK_CLIENT.
Proof.
  apply (C7_accept_calls_subscribes_auto Sample.connected "echo" Sample.echo).
  reflexivity.
Defined.


Lemma C9_witness :
  let self1 :=
    fst (call Sample.dumps Sample.connected (PStr "add") (PDict [])
              Sample.on_success Sample.on_error) in
  let self2 :=
    fst (_process_message Sample.loads Sample.dumps self1
           (Sample.message_to Sample.reply_topic [] Sample.reply_ok)) in
  callbacks_success self2 !! trans_id Sample.connected = Some Sample.on_success
  ∧ callbacks_error self2 !! trans_id Sample.connected = Some Sample.on_error
  ∧ callbacks_success self2 = callbacks_success self1
  ∧ callbacks_error self2 = callbacks_error self1
  ∧ size (callbacks_success self2) = 1%nat
  ∧ size (callbacks_error self2) = 1%nat.
Proof.
  apply (C9_replies_keep_correlation_entries Sample.loads Sample.dumps
           [Connect [true] "ABCDEFGH12345678"] Sample.connected
           (PStr "add") (PDict []) Sample.on_success Sample.on_error
           (Sample.message_to Sample.reply_topic [] Sample.reply_ok)).
  reflexivity.
Defined.

(** An error reply, and a success reply whose result is null, both end in
    [callback_error]; the latter is called with [None]. *)
Lemma error_reply_invokes_callback_error :
  let self1 :=
    fst (call Sample.dumps Sample.connected (PStr "add") (PDict [])
              Sample.on_success Sample.on_error) in
  _process_message Sample.loads Sample.dumps self1
    (Sample.message_to Sample.reply_topic [] Sample.reply_error) =
    (emit self1 (EvCallback Sample.on_error internal_error), Return tt)
  ∧ _process_message Sample.loads Sample.dumps self1
      (Sample.message_to Sample.reply_topic [] Sample.reply_null) =
      (emit self1 (EvCallback Sample.on_error PNone), Return tt).
Proof. split; vm_compute; reflexivity. Qed.

(** A message with an id whose destination has neither the job nor the
    reply prefix leaves [message_type] unassigned; reading it raises. *)
Lemma unclassifiable_message_raises :
  _process_message Sample.loads Sample.dumps Sample.connected
    (Sample.message_to "/topic/msg.local.ping" [] Sample.reply_ok) =
  (Sample.connected, Raise AttributeError).
Proof. vm_compute. reflexivity. Qed.

(** The body [quit] clears [listen], and [run] stops there. *)
Lemma quit_stops_run :
  run Sample.loads Sample.dumps Sample.connected
    [None; Some {| headers := ∅; body := MSG_QUIT |};
     Some (Sample.message_to Sample.reply_topic [] Sample.reply_ok)] =
  (set_listen (emit (set_listen Sample.connected true)
                    (EvSleep DEFAULT_RETRY_TIME)) false,
   Stopped).
Proof. vm_compute. reflexivity. Qed.

(** * Further properties of the session *)

(** ** Registration *)

(** X1.  Registering on a session that is not connected raises
    [NotConnectedError]: no handler is stored and nothing is
    subscribed, whatever the method name is. *)
Theorem registration_requires_connection self (m : pyval) (cb : kwhandler) :
  is_connected self = false →
  accept_calls self m cb = (self, Raise NotConnectedError)
  ∧ accept_notifications self m cb = (self, Raise NotConnectedError).
Proof.
  intros H. unfold accept_calls, accept_notifications. by rewrite H.
Qed.

Lemma registration_requires_connection_witness :
  accept_calls JSONRPCStomp_init (PStr "echo") Sample.echo =
    (JSONRPCStomp_init, Raise NotConnectedError)
  ∧ accept_notifications JSONRPCStomp_init (PStr "echo") Sample.echo =
      (JSONRPCStomp_init, Raise NotConnectedError).
Proof.
  apply (registration_requires_connection JSONRPCStomp_init
           (PStr "echo") Sample.echo).
  reflexivity.
Defined.

(** X2.  On a connected session a method name that is not a [str] raises
    [TypeError] and leaves the session as it was. *)
Theorem registration_rejects_non_str self (m : pyval) (cb : kwhandler) :
  is_connected self = true →
  isinstance_str m = None →
  accept_calls self m cb = (self, Raise TypeError)
  ∧ accept_notifications self m cb = (self, Raise TypeError).
Proof.
  intros Hc Hm. unfold accept_calls, accept_notifications.
  by rewrite Hc, Hm.
Qed.

Lemma registration_rejects_non_str_witness :
  accept_calls Sample.connected (PInt 5) Sample.echo =
    (Sample.connected, Raise TypeError)
  ∧ accept_notifications Sample.connected (PInt 5) Sample.echo =
      (Sample.connected, Raise TypeError).
Proof.
  apply (registration_rejects_non_str Sample.connected (PInt 5) Sample.echo);
    reflexivity.
Defined.

(** X3.  On a connected session [accept_notifications] with a [str] name
    stores the handler under that name, leaves the job handlers alone and
    subscribes once, in mode [auto], to the notification topic of the
    name. *)
Theorem accept_notifications_registers_and_subscribes
    self (name : string) (cb : kwhandler) :
  is_connected self = true →
  let after := fst (accept_notifications self (PStr name) cb) in
  snd (accept_notifications self (PStr name) cb) = Return tt
  ∧ notifiers after !! name = Some cb
  ∧ (∀ other, other ≠ name → notifiers after !! other = notifiers self !! other)
  ∧ methods after = methods self
  ∧ transport_log after =
      (transport_log self ++
       [EvSubscribe ("/topic/msg.local." +:+ name) "auto"])%list.
Proof.
  intros Hc. unfold accept_notifications. rewrite Hc. cbn.
  repeat split; [apply lookup_insert_eq|].
  intros other Hne. by apply lookup_insert_ne.
Qed.

Lemma accept_notifications_registers_and_subscribes_witness :
  let after :=
    fst (accept_notifications Sample.connected (PStr "ping") Sample.echo) in
  snd (accept_notifications Sample.connected (PStr "ping") Sample.echo)
    = Return tt
  ∧ notifiers after !! "ping" = Some Sample.echo
  ∧ (∀ other, other ≠ "ping" →
       notifiers after !! other = notifiers Sample.connected !! other)
  ∧ methods after = methods Sample.connected
  ∧ transport_log after =
      (transport_log Sample.connected ++
       [EvSubscribe ("/topic/msg.local." +:+ "ping") "auto"])%list.
Proof.
  apply (accept_notifications_registers_and_subscribes
           Sample.connected "ping" Sample.echo).
  reflexivity.
Defined.

(** X4.  Registering a second handler under a name that is taken replaces the
    first one and subscribes to the job topic a second time. *)
Theorem accept_calls_last_registration_wins
    self (name : string) (h1 h2 : kwhandler) :
  is_connected self = true →
  let once := fst (accept_calls self (PStr name) h1) in
  let twice := fst (accept_calls once (PStr name) h2) in
  methods twice !! name = Some h2
  ∧ methods twice = <[name := h2]> (methods self)
  ∧ transport_log twice =
      (transport_log self ++
       [EvSubscribe (PREFIX_TOPIC_JOB +:+ name) ACK_AUTO;
        EvSubscribe (PREFIX_TOPIC_JOB +:+ name) ACK_AUTO])%list.
Proof.
  intros Hc. unfold accept_calls. rewrite Hc. cbn. rewrite Hc. cbn.
  rewrite insert_insert_eq, lookup_insert_eq, <- app_assoc. done.
Qed.

Lemma accept_calls_last_registration_wins_witness :
  let once := fst (accept_calls Sample.connected (PStr "echo") Sample.raises) in
  let twice := fst (accept_calls once (PStr "echo") Sample.echo) in
  methods twice !! "echo" = Some Sample.echo
  ∧ methods twice = <["echo" := Sample.echo]> (methods Sample.connected)
  ∧ transport_log twice =
      (transport_log Sample.connected ++
       [EvSubscribe (PREFIX_TOPIC_JOB +:+ "echo") ACK_AUTO;
        EvSubscribe (PREFIX_TOPIC_JOB +:+ "echo") ACK_AUTO])%list.
Proof.
  apply (accept_calls_last_registration_wins Sample.connected "echo"
           Sample.raises Sample.echo).
  reflexivity.
Defined.

(** ** The job branch *)

Section Jobs.

Variable json_loads : string → option pyval.
Variable json_dumps : pyval → string.

Abbreviation process := (_process_message json_loads json_dumps).

(** The [try] of the job branch, with the decoding of [params] named. *)
Lemma job_try_decode self rpco :
  job_try json_loads json_dumps self rpco =
  match decode_params json_loads (params rpco) with
  | Raise e => (self, Raise e)
  | Return decoded =>
    match lookup_name (methods self) (method rpco) with
    | Raise e => (self, Raise e)
    | Return h =>
      match py_kwargs decoded with
      | Raise e => (self, Raise e)
      | Return kwargs =>
        match h kwargs with
        | Raise e => (emit self (EvInvoke h kwargs), Raise e)
        | Return (NotJson _) => (emit self (EvInvoke h kwargs), Raise TypeError)
        | Return (Json v) =>
          (put (emit self (EvInvoke h kwargs))
               (json_dumps (success_response (_id rpco) v))
               (reply_to rpco) [],
           Return tt)
        end
      end
    end
  end.
Proof.
  unfold job_try, decode_params. by destruct (py_len (params rpco)).
Qed.

(** What [_process_message] does with a job whose parameters decode to a
    dict and whose method has a handler. *)
Lemma job_dispatch self message d destination h kwargs :
  body message ≠ MSG_QUIT →
  headers message !! "destination" = Some destination →
  json_loads (body message) = Some (PDict d) →
  dict_get d JSONRPC_KEY_ID ≠ PNone →
  startswith destination PREFIX_TOPIC_JOB = true →
  methods self !! partition_last PREFIX_TOPIC_JOB destination = Some h →
  decode_params json_loads (dict_get d JSONRPC_KEY_PARAMS)
    = Return (PDict kwargs) →
  process self message =
  (put (emit self (EvInvoke h kwargs))
       (json_dumps
          match h kwargs with
          | Return (Json v) => success_response (dict_get d JSONRPC_KEY_ID) v
          | Return (NotJson _) | Raise _ =>
            error_response (dict_get d JSONRPC_KEY_ID)
          end)
       (headers message !! JSONRPC_KEY_REPLY_TO) [],
   Return tt).
Proof.
  intros Hquit Hdest Hd Hid Hjob Hh Hdec.
  destruct (process_job_message json_loads json_dumps self _ _ _
              Hquit Hdest Hd Hid Hjob)
    as (rpco & _ & -> & Hp & Hm & Hrid & Hrto).
  unfold process_job. rewrite job_try_decode, Hp, Hdec, Hm.
  unfold lookup_name. rewrite Hh. cbn [py_kwargs].
  destruct (h kwargs) as [[v|r]|e]; by rewrite Hrid, Hrto.
Qed.

(** X5.  A handler registered with [accept_calls] under a name is the one a
    job arriving on the topic subscribed for that name reaches: it is
    called once with the decoded parameters, and one envelope goes to the
    [reply-to] destination: with the handler's result when the handler
    returns a value [json.dumps] accepts, with the Internal error when
    the handler raises or returns a value [json.dumps] rejects. *)
Theorem registered_method_serves_its_topic
    self (name : string) (h : kwhandler) message d kwargs :
  is_connected self = true →
  body message ≠ MSG_QUIT →
  headers message !! "destination" = Some (PREFIX_TOPIC_JOB +:+ name) →
  json_loads (body message) = Some (PDict d) →
  dict_get d JSONRPC_KEY_ID ≠ PNone →
  decode_params json_loads (dict_get d JSONRPC_KEY_PARAMS)
    = Return (PDict kwargs) →
  let serving := fst (accept_calls self (PStr name) h) in
  process serving message =
  (put (emit serving (EvInvoke h kwargs))
       (json_dumps
          match h kwargs with
          | Return (Json v) => success_response (dict_get d JSONRPC_KEY_ID) v
          | Return (NotJson _) | Raise _ =>
            error_response (dict_get d JSONRPC_KEY_ID)
          end)
       (headers message !! JSONRPC_KEY_REPLY_TO) [],
   Return tt).
Proof.
  intros Hc Hquit Hdest Hd Hid Hdec serving.
  apply (job_dispatch serving message d (PREFIX_TOPIC_JOB +:+ name));
    try done.
  - apply startswith_app.
  - rewrite partition_last_app. subst serving. unfold accept_calls.
    rewrite Hc. cbn. apply lookup_insert_eq.
Qed.

(** When the [try] of the job branch completes, the handler ran and its
    result was published. *)
Lemma job_try_return self rpco s1 :
  job_try json_loads json_dumps self rpco = (s1, Return tt) →
  ∃ h kwargs v,
    s1 = put (emit self (EvInvoke h kwargs))
             (json_dumps (success_response (_id rpco) v)) (reply_to rpco) [].
Proof.
  unfold job_try. repeat case_match; intros [= <-]; eauto.
Qed.

(** X6.  Whatever a job message carries, processing it returns normally and
    publishes exactly one message, to the [reply-to] destination: the
    envelope with the job's id and either a result or the Internal
    error. *)
Theorem job_is_answered_exactly_once self message d destination :
  body message ≠ MSG_QUIT →
  headers message !! "destination" = Some destination →
  json_loads (body message) = Some (PDict d) →
  dict_get d JSONRPC_KEY_ID ≠ PNone →
  startswith destination PREFIX_TOPIC_JOB = true →
  ∃ s2 new answer,
    process self message = (s2, Return tt)
    ∧ transport_log s2 = (transport_log self ++ new)%list
    ∧ List.filter is_put new =
        [EvPut (json_dumps answer) (headers message !! "reply-to") []]
    ∧ (answer = error_response (dict_get d "id")
       ∨ ∃ v, answer = success_response (dict_get d "id") v).
Proof.
  intros Hquit Hdest Hd Hid Hjob.
  destruct (process_job_message json_loads json_dumps self _ _ _
              Hquit Hdest Hd Hid Hjob)
    as (rpco & _ & -> & _ & _ & Hrid & Hrto).
  unfold process_job.
  destruct (job_try json_loads json_dumps self rpco) as [s1 [[]|e]] eqn:Htry.
  - destruct (job_try_return _ _ _ Htry) as (h & kwargs & v & ->).
    rewrite Hrid, Hrto.
    eexists _, [EvInvoke h kwargs; _], _.
    split; [reflexivity|]. split; [cbn; by rewrite <- app_assoc|].
    split; [reflexivity|]. right. by exists v.
  - rewrite Hrid, Hrto.
    destruct (job_try_raise json_loads json_dumps _ _ _ _ Htry) as [->|(h & kwargs & ->)].
    + eexists _, [_], _.
      split; [reflexivity|]. split; [reflexivity|].
      split; [reflexivity|]. by left.
    + eexists _, [EvInvoke h kwargs; _], _.
      split; [reflexivity|]. split; [cbn; by rewrite <- app_assoc|].
      split; [reflexivity|]. by left.
Qed.

(** X7.  A job for a method nobody registered is answered with the Internal
    error (code -32603), whatever its parameters are; no handler runs and
    the session is otherwise untouched. *)
Theorem unregistered_method_gets_internal_error
    self message d destination :
  body message ≠ MSG_QUIT →
  headers message !! "destination" = Some destination →
  json_loads (body message) = Some (PDict d) →
  dict_get d JSONRPC_KEY_ID ≠ PNone →
  startswith destination PREFIX_TOPIC_JOB = true →
  methods self !! partition_last PREFIX_TOPIC_JOB destination = None →
  process self message =
  (put self
       (json_dumps
          (PDict [("jsonrpc", PStr "2.0");
                  ("id", dict_get d "id");
                  ("error", PDict [("code", PInt (-32603));
                                   ("message", PStr "Internal error")])]))
       (headers message !! "reply-to") [],
   Return tt).
Proof.
  intros Hquit Hdest Hd Hid Hjob Hnone.
  destruct (process_job_message json_loads json_dumps self _ _ _
              Hquit Hdest Hd Hid Hjob)
    as (rpco & _ & -> & _ & Hm & Hrid & Hrto).
  unfold process_job. rewrite job_try_decode, Hm.
  unfold lookup_name. rewrite Hnone, Hrid, Hrto.
  by destruct (decode_params json_loads (params rpco)).
Qed.

(** X8.  Parameters of positive length that are not a string (a dict or a
    list that is not empty) cannot be decoded: the job is answered with
    the Internal error and the handler, registered or not, is not
    called. *)
Theorem undecoded_params_get_internal_error
    self message d destination n :
  body message ≠ MSG_QUIT →
  headers message !! "destination" = Some destination →
  json_loads (body message) = Some (PDict d) →
  dict_get d JSONRPC_KEY_ID ≠ PNone →
  startswith destination PREFIX_TOPIC_JOB = true →
  py_len (dict_get d JSONRPC_KEY_PARAMS) = Return n →
  0 < n →
  isinstance_str (dict_get d JSONRPC_KEY_PARAMS) = None →
  process self message =
  (put self (json_dumps (error_response (dict_get d JSONRPC_KEY_ID)))
       (headers message !! JSONRPC_KEY_REPLY_TO) [],
   Return tt).
Proof.
  intros Hquit Hdest Hd Hid Hjob Hlen Hpos Hstr.
  destruct (process_job_message json_loads json_dumps self _ _ _
              Hquit Hdest Hd Hid Hjob)
    as (rpco & _ & -> & Hp & _ & Hrid & Hrto).
  unfold process_job. rewrite job_try_decode, Hp.
  unfold decode_params. rewrite Hlen.
  apply Z.ltb_lt in Hpos. rewrite Hpos.
  destruct (dict_get d JSONRPC_KEY_PARAMS); try done;
    by rewrite Hrid, Hrto.
Qed.

End Jobs.

Lemma registered_method_serves_its_topic_witness :
  let serving := fst (accept_calls Sample.connected (PStr "echo") Sample.echo) in
  _process_message Exchange.loads Sample.dumps serving
    (Sample.job_to_echo Exchange.request) =
  (put (emit serving (EvInvoke Sample.echo []))
       (Sample.dumps (success_response (PInt 1) (PDict [])))
       (Some Sample.reply_topic) [],
   Return tt).
Proof.
  apply (registered_method_serves_its_topic Exchange.loads Sample.dumps
           Sample.connected "echo" Sample.echo
           (Sample.job_to_echo Exchange.request)
           [Sample.version; ("method", PStr "echo"); ("id", PInt 1);
            ("params", PStr "{}")]
           []);
    vm_compute; (reflexivity || discriminate).
Defined.

Lemma job_is_answered_exactly_once_witness :
  ∃ s2 new answer,
    _process_message Exchange.loads Sample.dumps
      (Sample.serving Sample.raises)
      (Sample.job_to_echo Exchange.request_with_dict) = (s2, Return tt)
    ∧ transport_log s2 =
        (transport_log (Sample.serving Sample.raises) ++ new)%list
    ∧ List.filter is_put new =
        [EvPut (Sample.dumps answer)
               (headers (Sample.job_to_echo Exchange.request_with_dict)
                  !! "reply-to") []]
    ∧ (answer = error_response
                  (dict_get [Sample.version; ("method", PStr "echo");
                             ("id", PInt 1);
                             ("params", PDict [("x", PInt 2)])] "id")
       ∨ ∃ v, answer = success_response
                  (dict_get [Sample.version; ("method", PStr "echo");
                             ("id", PInt 1);
                             ("params", PDict [("x", PInt 2)])] "id") v).
Proof.
  apply (job_is_answered_exactly_once Exchange.loads Sample.dumps
           (Sample.serving Sample.raises)
           (Sample.job_to_echo Exchange.request_with_dict)
           [Sample.version; ("method", PStr "echo"); ("id", PInt 1);
            ("params", PDict [("x", PInt 2)])]
           "/topic/req.local.echo");
    vm_compute; (reflexivity || discriminate).
Defined.

Lemma unregistered_method_gets_internal_error_witness :
  _process_message Exchange.loads Sample.dumps Sample.connected
    (Sample.job_to_echo Exchange.request) =
  (put Sample.connected
       (Sample.dumps
          (PDict [("jsonrpc", PStr "2.0");
                  ("id", PInt 1);
                  ("error", PDict [("code", PInt (-32603));
                                   ("message", PStr "Internal error")])]))
       (Some Sample.reply_topic) [],
   Return tt).
Proof.
  apply (unregistered_method_gets_internal_error Exchange.loads Sample.dumps
           Sample.connected (Sample.job_to_echo Exchange.request)
           [Sample.version; ("method", PStr "echo"); ("id", PInt 1);
            ("params", PStr "{}")]
           "/topic/req.local.echo");
    vm_compute; (reflexivity || discriminate).
Defined.

Lemma undecoded_params_get_internal_error_witness :
  _process_message Exchange.loads Sample.dumps (Sample.serving Sample.echo)
    (Sample.job_to_echo Exchange.request_with_dict) =
  (put (Sample.serving Sample.echo)
       (Sample.dumps (error_response (PInt 1)))
       (Some Sample.reply_topic) [],
   Return tt).
Proof.
  apply (undecoded_params_get_internal_error Exchange.loads Sample.dumps
           (Sample.serving Sample.echo)
           (Sample.job_to_echo Exchange.request_with_dict)
           [Sample.version; ("method", PStr "echo"); ("id", PInt 1);
            ("params", PDict [("x", PInt 2)])]
           "/topic/req.local.echo" 1);
    vm_compute; (reflexivity || discriminate).
Defined.

(** ** The classifier beyond replies and notifications *)

(** X9.  A destination starts with at most one of the three topic prefixes,
    so the two independent tests of the classifier never both apply. *)
Theorem topic_prefixes_are_exclusive (destination : string) :
  ((if startswith destination PREFIX_TOPIC_JOB then 1 else 0)
   + (if startswith destination PREFIX_REPLY then 1 else 0)
   + (if startswith destination PREFIX_TOPIC_MESSAGE then 1 else 0)
   ≤ 1)%nat.
Proof.
  destruct (startswith destination PREFIX_TOPIC_JOB) eqn:Hj.
  - destruct (prefix_inv _ _ Hj) as [t ->].
    change (startswith (PREFIX_TOPIC_JOB +:+ t) PREFIX_REPLY) with false.
    change (startswith (PREFIX_TOPIC_JOB +:+ t) PREFIX_TOPIC_MESSAGE)
      with false.
    cbv iota. lia.
  - destruct (startswith destination PREFIX_REPLY) eqn:Hr; [|case_match; lia].
    destruct (prefix_inv _ _ Hr) as [t ->].
    change (startswith (PREFIX_REPLY +:+ t) PREFIX_TOPIC_MESSAGE) with false.
    cbv iota. lia.
Qed.

Section MoreClassifier.

Variable json_loads : string → option pyval.

(** X10.  A message with an id whose destination starts with the job prefix is
    a job.  Its method name is read off the destination (the [method]
    member of the envelope is overwritten), and its reply destination is
    the [reply-to] header, [None] when the header is missing. *)
Theorem job_is_named_by_its_destination message d destination :
  headers message !! "destination" = Some destination →
  json_loads (body message) = Some (PDict d) →
  dict_get d JSONRPC_KEY_ID ≠ PNone →
  startswith destination PREFIX_TOPIC_JOB = true →
  ∃ rpco,
    JSONRPCObject_init json_loads message = Return rpco
    ∧ message_type rpco = Some MSG_TYPE_JOB
    ∧ is_job rpco = Return true
    ∧ is_notification rpco = Return false
    ∧ is_callback rpco = Return false
    ∧ method rpco = PStr (partition_last PREFIX_TOPIC_JOB destination)
    ∧ (∀ name, destination = PREFIX_TOPIC_JOB +:+ name →
               method rpco = PStr name)
    ∧ reply_to rpco = headers message !! "reply-to"
    ∧ _id rpco = dict_get d "id"
    ∧ params rpco = dict_get d "params".
Proof.
  intros Hdest Hd Hid Hjob.
  eexists. split; [exact (init_job _ _ _ _ Hdest Hd Hid Hjob)|].
  repeat split. intros name ->. cbn [method set_reply_to set_method].
  by rewrite partition_last_app.
Qed.

(** X11.  An [id] member that is null counts as no id: the message is a
    notification even when it is addressed to a job or a reply topic,
    and it has no reply destination. *)
Theorem null_id_is_notification message d destination :
  headers message !! "destination" = Some destination →
  json_loads (body message) = Some (PDict d) →
  dict_mem d JSONRPC_KEY_ID = true →
  dict_get d JSONRPC_KEY_ID = PNone →
  ∃ rpco,
    JSONRPCObject_init json_loads message = Return rpco
    ∧ message_type rpco = Some MSG_TYPE_NOT
    ∧ is_job rpco = Return false
    ∧ is_callback rpco = Return false
    ∧ notification rpco =
        Some (partition_last PREFIX_TOPIC_MESSAGE destination)
    ∧ reply_to rpco = None.
Proof.
  intros Hdest Hd _ Hid.
  eexists. split; [exact (init_notification _ _ _ _ Hdest Hd Hid)|].
  by repeat split.
Qed.

End MoreClassifier.

Lemma job_is_named_by_its_destination_witness :
  ∃ rpco,
    JSONRPCObject_init Exchange.loads (Sample.job_to_echo Exchange.request)
      = Return rpco
    ∧ message_type rpco = Some MSG_TYPE_JOB
    ∧ is_job rpco = Return true
    ∧ is_notification rpco = Return false
    ∧ is_callback rpco = Return false
    ∧ method rpco =
        PStr (partition_last PREFIX_TOPIC_JOB "/topic/req.local.echo")
    ∧ (∀ name, "/topic/req.local.echo" = PREFIX_TOPIC_JOB +:+ name →
               method rpco = PStr name)
    ∧ reply_to rpco =
        headers (Sample.job_to_echo Exchange.request) !! "reply-to"
    ∧ _id rpco =
        dict_get [Sample.version; ("method", PStr "echo"); ("id", PInt 1);
                  ("params", PStr "{}")] "id"
    ∧ params rpco =
        dict_get [Sample.version; ("method", PStr "echo"); ("id", PInt 1);
                  ("params", PStr "{}")] "params".
Proof.
  apply (job_is_named_by_its_destination Exchange.loads
           (Sample.job_to_echo Exchange.request)
           [Sample.version; ("method", PStr "echo"); ("id", PInt 1);
            ("params", PStr "{}")]
           "/topic/req.local.echo");
    vm_compute; (reflexivity || discriminate).
Defined.

Lemma null_id_is_notification_witness :
  ∃ rpco,
    JSONRPCObject_init Exchange.loads
      (Sample.message_to Sample.reply_topic [] Exchange.null_id) = Return rpco
    ∧ message_type rpco = Some MSG_TYPE_NOT
    ∧ is_job rpco = Return false
    ∧ is_callback rpco = Return false
    ∧ notification rpco =
        Some (partition_last PREFIX_TOPIC_MESSAGE Sample.reply_topic)
    ∧ reply_to rpco = None.
Proof.
  apply (null_id_is_notification Exchange.loads
           (Sample.message_to Sample.reply_topic [] Exchange.null_id)
           [Sample.version; ("id", PNone); ("result", PInt 5)]
           Sample.reply_topic);
    vm_compute; reflexivity.
Defined.

(** ** Replies, and messages the dispatcher cannot route *)

Section Routing.

Variable json_loads : string → option pyval.
Variable json_dumps : pyval → string.

Abbreviation process := (_process_message json_loads json_dumps).
Abbreviation running := (run json_loads json_dumps).

(** A reply reaches [process_callback]. *)
Lemma process_reply_message self message d destination :
  body message ≠ MSG_QUIT →
  headers message !! "destination" = Some destination →
  json_loads (body message) = Some (PDict d) →
  dict_get d JSONRPC_KEY_ID ≠ PNone →
  startswith destination PREFIX_REPLY = true →
  process self message =
  if is_None (dict_get d JSONRPC_KEY_RESULT)
  then fire self (callbacks_error self) (dict_get d JSONRPC_KEY_ID)
            (dict_get d JSONRPC_KEY_ERROR)
  else fire self (callbacks_success self) (dict_get d JSONRPC_KEY_ID)
            (dict_get d JSONRPC_KEY_RESULT).
Proof.
  intros Hquit Hdest Hd Hid Hreply.
  unfold _process_message. apply String.eqb_neq in Hquit. rewrite Hquit.
  rewrite (init_reply _ _ _ _ Hdest Hd Hid Hreply).
  by destruct (is_None (dict_get d JSONRPC_KEY_RESULT)).
Qed.

Lemma reply_dispatch self message d destination k (cS cE : callback) :
  body message ≠ MSG_QUIT →
  headers message !! "destination" = Some destination →
  json_loads (body message) = Some (PDict d) →
  dict_get d JSONRPC_KEY_ID = PInt k →
  startswith destination PREFIX_REPLY = true →
  callbacks_success self !! k = Some cS →
  callbacks_error self !! k = Some cE →
  process self message =
  if is_None (dict_get d JSONRPC_KEY_RESULT)
  then (emit self (EvCallback cE (dict_get d JSONRPC_KEY_ERROR)),
        ignore_value (cE (dict_get d JSONRPC_KEY_ERROR)))
  else (emit self (EvCallback cS (dict_get d JSONRPC_KEY_RESULT)),
        ignore_value (cS (dict_get d JSONRPC_KEY_RESULT))).
Proof.
  intros Hquit Hdest Hd Hid Hreply HcS HcE.
  rewrite (process_reply_message _ _ _ _ Hquit Hdest Hd) by
    (by rewrite ?Hid).
  unfold fire. rewrite Hid. cbn [lookup_id]. by rewrite HcS, HcE.
Qed.

(** X12.  A reply is matched by the reply prefix of its destination and by its
    id alone: whatever reply topic it is addressed to, this session's or
    another's, the callbacks stored under its id are the ones used. *)
Theorem reply_is_matched_by_prefix_and_id
    self message d destination k (cS cE : callback) :
  body message ≠ MSG_QUIT →
  headers message !! "destination" = Some destination →
  json_loads (body message) = Some (PDict d) →
  dict_get d JSONRPC_KEY_ID = PInt k →
  startswith destination PREFIX_REPLY = true →
  callbacks_success self !! k = Some cS →
  callbacks_error self !! k = Some cE →
  process self message =
  if is_None (dict_get d JSONRPC_KEY_RESULT)
  then (emit self (EvCallback cE (dict_get d JSONRPC_KEY_ERROR)),
        ignore_value (cE (dict_get d JSONRPC_KEY_ERROR)))
  else (emit self (EvCallback cS (dict_get d JSONRPC_KEY_RESULT)),
        ignore_value (cS (dict_get d JSONRPC_KEY_RESULT))).
Proof. apply reply_dispatch. Qed.

(** X13.  Entries are never consumed: the same reply delivered twice calls the
    same callback twice. *)
Theorem duplicate_reply_calls_back_twice
    self message d destination k (cS cE : callback) :
  body message ≠ MSG_QUIT →
  headers message !! "destination" = Some destination →
  json_loads (body message) = Some (PDict d) →
  dict_get d JSONRPC_KEY_ID = PInt k →
  startswith destination PREFIX_REPLY = true →
  callbacks_success self !! k = Some cS →
  callbacks_error self !! k = Some cE →
  let invocation :=
    if is_None (dict_get d JSONRPC_KEY_RESULT)
    then EvCallback cE (dict_get d JSONRPC_KEY_ERROR)
    else EvCallback cS (dict_get d JSONRPC_KEY_RESULT) in
  transport_log (fst (process (fst (process self message)) message)) =
  (transport_log self ++ [invocation; invocation])%list.
Proof.
  intros Hquit Hdest Hd Hid Hreply HcS HcE invocation.
  pose proof (process_message_frame json_loads json_dumps self message)
    as (_ & _ & Hfs & Hfe & _).
  rewrite (reply_dispatch (fst (process self message)) _ _ _ _ cS cE
             Hquit Hdest Hd Hid Hreply) by congruence.
  rewrite (reply_dispatch self _ _ _ _ cS cE Hquit Hdest Hd Hid Hreply)
    by done.
  subst invocation.
  destruct (is_None (dict_get d JSONRPC_KEY_RESULT)); cbn;
    by rewrite <- app_assoc.
Qed.

(** X14.  An exception raised by a callback is not caught: it leaves
    [_process_message] and ends [run], and the messages that follow are
    not received. *)
Theorem callback_exception_ends_run
    self message d destination k (cS cE : callback) e rest :
  body message ≠ MSG_QUIT →
  headers message !! "destination" = Some destination →
  json_loads (body message) = Some (PDict d) →
  dict_get d JSONRPC_KEY_ID = PInt k →
  startswith destination PREFIX_REPLY = true →
  callbacks_success self !! k = Some cS →
  callbacks_error self !! k = Some cE →
  (if is_None (dict_get d JSONRPC_KEY_RESULT)
   then cE (dict_get d JSONRPC_KEY_ERROR)
   else cS (dict_get d JSONRPC_KEY_RESULT)) = Raise e →
  snd (process self message) = Raise e
  ∧ snd (running self (Some message :: rest)) = Crashed e
  ∧ transport_log (fst (running self (Some message :: rest))) =
      (transport_log self ++
       [if is_None (dict_get d JSONRPC_KEY_RESULT)
        then EvCallback cE (dict_get d JSONRPC_KEY_ERROR)
        else EvCallback cS (dict_get d JSONRPC_KEY_RESULT)])%list.
Proof.
  intros Hquit Hdest Hd Hid Hreply HcS HcE He.
  unfold run. cbn [run_loop listen set_listen].
  rewrite (reply_dispatch (set_listen self true) _ _ _ _ cS cE
             Hquit Hdest Hd Hid Hreply) by done.
  rewrite (reply_dispatch self _ _ _ _ cS cE Hquit Hdest Hd Hid Hreply)
    by done.
  destruct (is_None (dict_get d JSONRPC_KEY_RESULT)); cbn [fst snd];
    by rewrite He.
Qed.

(** X15.  A reply whose id was never handed out finds no entry: [KeyError]
    leaves [_process_message], no callback runs and the session is
    unchanged. *)
Theorem reply_with_unknown_id_raises_KeyError
    program self message d destination k :
  exec_all json_loads json_dumps JSONRPCStomp_init program = Some self →
  last_id self < k →
  body message ≠ MSG_QUIT →
  headers message !! "destination" = Some destination →
  json_loads (body message) = Some (PDict d) →
  dict_get d JSONRPC_KEY_ID = PInt k →
  startswith destination PREFIX_REPLY = true →
  process self message = (self, Raise KeyError).
Proof.
  intros Hreach Hk Hquit Hdest Hd Hid Hreply.
  destruct (steps_keys_bounded json_loads json_dumps _ _ _
              init_keys_bounded Hreach) as ([Hbs Hbe] & _).
  assert (callbacks_success self !! k = None) as Hs.
  { apply eq_None_not_Some. intros H%Hbs. lia. }
  assert (callbacks_error self !! k = None) as He.
  { apply eq_None_not_Some. intros H%Hbe. lia. }
  rewrite (process_reply_message _ _ _ _ Hquit Hdest Hd) by
    (by rewrite ?Hid).
  unfold fire. rewrite Hid. cbn [lookup_id]. rewrite Hs, He.
  by destruct (is_None (dict_get d JSONRPC_KEY_RESULT)).
Qed.

(** X16.  A message with an id whose destination has neither the job nor the
    reply prefix is given no type.  Reading the type raises
    [AttributeError] (the final [NotImplementedError] branch is never
    reached), nothing is published, and [run] ends. *)
Theorem unclassifiable_message_raises_AttributeError
    self message d destination rest :
  body message ≠ MSG_QUIT →
  headers message !! "destination" = Some destination →
  json_loads (body message) = Some (PDict d) →
  dict_get d JSONRPC_KEY_ID ≠ PNone →
  startswith destination PREFIX_TOPIC_JOB = false →
  startswith destination PREFIX_REPLY = false →
  process self message = (self, Raise AttributeError)
  ∧ running self (Some message :: rest) =
      (set_listen self true, Crashed AttributeError).
Proof.
  intros Hquit Hdest Hd Hid Hjob Hreply.
  assert (∀ s, process s message = (s, Raise AttributeError)) as H.
  { intros s. unfold _process_message.
    apply String.eqb_neq in Hquit. rewrite Hquit.
    rewrite (init_classify _ _ _ Hd), Hdest. unfold classify.
    apply is_None_false in Hid. cbn [_id envelope].
    by rewrite Hid, Hjob, Hreply. }
  split; [apply H|].
  unfold run. cbn [run_loop listen set_listen]. by rewrite H.
Qed.

(** X17.  A body that is not JSON, a JSON value that is not an object, or a
    missing [destination] header makes the classifier raise.  The
    exception is not caught: the session is left as it was, nothing is
    published, and [run] ends. *)
Theorem classifier_exception_ends_run self message e rest :
  body message ≠ MSG_QUIT →
  JSONRPCObject_init json_loads message = Raise e →
  process self message = (self, Raise e)
  ∧ running self (Some message :: rest) = (set_listen self true, Crashed e)
  ∧ (json_loads (body message) = None → e = ValueError)
  ∧ (∀ v, json_loads (body message) = Some v → e = AttributeError).
Proof.
  intros Hquit Hinit.
  assert (∀ s, process s message = (s, Raise e)) as H.
  { intros s. unfold _process_message.
    apply String.eqb_neq in Hquit. by rewrite Hquit, Hinit. }
  split; [apply H|]. split.
  { unfold run. cbn [run_loop listen set_listen]. by rewrite H. }
  unfold JSONRPCObject_init in Hinit. split.
  - intros Hnone. rewrite Hnone in Hinit. congruence.
  - intros v Hv. rewrite Hv in Hinit. unfold classify in Hinit.
    repeat case_match; congruence.
Qed.

End Routing.

Lemma reply_is_matched_by_prefix_and_id_witness :
  let self :=
    fst (call Sample.dumps Sample.connected (PStr "add") (PDict [])
              Sample.on_success Sample.on_error) in
  _process_message Sample.loads Sample.dumps self
    (Sample.message_to "/topic/reply-SOMEONEELSE" [] Sample.reply_ok) =
  (emit self (EvCallback Sample.on_success (PInt 5)), Return tt).
Proof.
  apply (reply_is_matched_by_prefix_and_id Sample.loads Sample.dumps
           (fst (call Sample.dumps Sample.connected (PStr "add") (PDict [])
                      Sample.on_success Sample.on_error))
           (Sample.message_to "/topic/reply-SOMEONEELSE" [] Sample.reply_ok)
           [Sample.version; ("id", PInt 1); ("result", PInt 5)]
           "/topic/reply-SOMEONEELSE" 1 Sample.on_success Sample.on_error);
    vm_compute; (reflexivity || discriminate).
Defined.

Lemma duplicate_reply_calls_back_twice_witness :
  let self :=
    fst (call Sample.dumps Sample.connected (PStr "add") (PDict [])
              Sample.on_success Sample.on_error) in
  let message := Sample.message_to Sample.reply_topic [] Sample.reply_ok in
  transport_log
    (fst (_process_message Sample.loads Sample.dumps
            (fst (_process_message Sample.loads Sample.dumps self message))
            message)) =
  (transport_log self ++
   [EvCallback Sample.on_success (PInt 5);
    EvCallback Sample.on_success (PInt 5)])%list.
Proof.
  apply (duplicate_reply_calls_back_twice Sample.loads Sample.dumps
           (fst (call Sample.dumps Sample.connected (PStr "add") (PDict [])
                      Sample.on_success Sample.on_error))
           (Sample.message_to Sample.reply_topic [] Sample.reply_ok)
           [Sample.version; ("id", PInt 1); ("result", PInt 5)]
           Sample.reply_topic 1 Sample.on_success Sample.on_error);
    vm_compute; (reflexivity || discriminate).
Defined.

Lemma callback_exception_ends_run_witness :
  let failing : callback := λ _, Raise (HandlerError "boom") in
  let self :=
    fst (call Sample.dumps Sample.connected (PStr "add") (PDict [])
              failing Sample.on_error) in
  let message := Sample.message_to Sample.reply_topic [] Sample.reply_ok in
  snd (_process_message Sample.loads Sample.dumps self message)
    = Raise (HandlerError "boom")
  ∧ snd (run Sample.loads Sample.dumps self [Some message; Some message])
      = Crashed (HandlerError "boom")
  ∧ transport_log
      (fst (run Sample.loads Sample.dumps self [Some message; Some message])) =
      (transport_log self ++ [EvCallback failing (PInt 5)])%list.
Proof.
  apply (callback_exception_ends_run Sample.loads Sample.dumps
           (fst (call Sample.dumps Sample.connected (PStr "add") (PDict [])
                      (λ _, Raise (HandlerError "boom")) Sample.on_error))
           (Sample.message_to Sample.reply_topic [] Sample.reply_ok)
           [Sample.version; ("id", PInt 1); ("result", PInt 5)]
           Sample.reply_topic 1
           (λ _, Raise (HandlerError "boom")) Sample.on_error
           (HandlerError "boom")
           [Some (Sample.message_to Sample.reply_topic [] Sample.reply_ok)]);
    vm_compute; (reflexivity || discriminate).
Defined.

Lemma reply_with_unknown_id_raises_KeyError_witness :
  _process_message Exchange.loads Sample.dumps Sample.connected
    (Sample.message_to Sample.reply_topic [] Exchange.reply_7) =
  (Sample.connected, Raise KeyError).
Proof.
  apply (reply_with_unknown_id_raises_KeyError Exchange.loads Sample.dumps
           [Connect [true] "ABCDEFGH12345678"] Sample.connected
           (Sample.message_to Sample.reply_topic [] Exchange.reply_7)
           [Sample.version; ("id", PInt 7); ("result", PInt 5)]
           Sample.reply_topic 7);
    vm_compute; (reflexivity || discriminate).
Defined.

Lemma unclassifiable_message_raises_AttributeError_witness :
  let message :=
    Sample.message_to "/topic/msg.local.ping" [] Sample.reply_ok in
  _process_message Sample.loads Sample.dumps Sample.connected message =
    (Sample.connected, Raise AttributeError)
  ∧ run Sample.loads Sample.dumps Sample.connected
        [Some message; Some message] =
      (set_listen Sample.connected true, Crashed AttributeError).
Proof.
  apply (unclassifiable_message_raises_AttributeError
           Sample.loads Sample.dumps Sample.connected
           (Sample.message_to "/topic/msg.local.ping" [] Sample.reply_ok)
           [Sample.version; ("id", PInt 1); ("result", PInt 5)]
           "/topic/msg.local.ping"
           [Some (Sample.message_to "/topic/msg.local.ping" [] Sample.reply_ok)]);
    vm_compute; (reflexivity || discriminate).
Defined.

Lemma classifier_exception_ends_run_witness :
  let message := {| headers := ∅; body := "not json" |} in
  _process_message Sample.loads Sample.dumps Sample.connected message =
    (Sample.connected, Raise ValueError)
  ∧ run Sample.loads Sample.dumps Sample.connected [Some message; None] =
      (set_listen Sample.connected true, Crashed ValueError)
  ∧ (Sample.loads (body message) = None → ValueError = ValueError)
  ∧ (∀ v, Sample.loads (body message) = Some v → ValueError = AttributeError).
Proof.
  apply (classifier_exception_ends_run Sample.loads Sample.dumps
           Sample.connected {| headers := ∅; body := "not json" |}
           ValueError [None]);
    vm_compute; (reflexivity || discriminate).
Defined.

(** ** Notifications and the dispatch loop *)

Section Loop.

Variable json_loads : string → option pyval.
Variable json_dumps : pyval → string.

Abbreviation process := (_process_message json_loads json_dumps).
Abbreviation running := (run json_loads json_dumps).
Abbreviation looping := (run_loop json_loads json_dumps).

(** X18.  A handler registered with [accept_notifications] under a name is
    the one a notification arriving on the topic subscribed for that
    name reaches; it is called once, with the members of [params] as
    keyword arguments, and nothing is published. *)
Theorem registered_notifier_serves_its_topic
    self (name : string) (h : kwhandler) message d kwargs :
  is_connected self = true →
  body message ≠ MSG_QUIT →
  headers message !! "destination" = Some (PREFIX_TOPIC_MESSAGE +:+ name) →
  json_loads (body message) = Some (PDict d) →
  dict_get d JSONRPC_KEY_ID = PNone →
  dict_get d JSONRPC_KEY_PARAMS = PDict kwargs →
  let listening := fst (accept_notifications self (PStr name) h) in
  process listening message =
  (emit listening (EvInvoke h kwargs), ignore_value (h kwargs)).
Proof.
  intros Hc Hquit Hdest Hd Hid Hp listening.
  assert (notifiers listening !! name = Some h) as Hh.
  { subst listening. unfold accept_notifications. rewrite Hc. cbn.
    apply lookup_insert_eq. }
  rewrite (process_notification_message json_loads json_dumps
             _ _ _ _ Hquit Hdest Hd Hid).
  unfold process_notification.
  cbn [notification set_notification params set_message_type envelope].
  by rewrite partition_last_app, Hh, Hp.
Qed.

(** X19.  A notification nobody registered for raises [KeyError] out of
    [_process_message]: the session is unchanged, nothing is published,
    and [run] ends. *)
Theorem unregistered_notification_raises_KeyError
    self message d destination rest :
  body message ≠ MSG_QUIT →
  headers message !! "destination" = Some destination →
  json_loads (body message) = Some (PDict d) →
  dict_get d JSONRPC_KEY_ID = PNone →
  notifiers self !! partition_last PREFIX_TOPIC_MESSAGE destination = None →
  process self message = (self, Raise KeyError)
  ∧ running self (Some message :: rest) = (set_listen self true, Crashed KeyError).
Proof.
  intros Hquit Hdest Hd Hid Hnone.
  assert (∀ s, notifiers s = notifiers self →
               process s message = (s, Raise KeyError)) as H.
  { intros s Hs.
    rewrite (process_notification_message json_loads json_dumps
               _ _ _ _ Hquit Hdest Hd Hid).
    unfold process_notification.
    cbn [notification set_notification]. by rewrite Hs, Hnone. }
  split; [by apply H|].
  unfold run. cbn [run_loop listen set_listen]. by rewrite H.
Qed.

(** X20.  A notification whose [params] is not a dict (absent, null, a list, a
    string) raises [TypeError] before its handler is called. *)
Theorem notification_params_must_be_a_dict
    self message d destination (h : kwhandler) rest :
  body message ≠ MSG_QUIT →
  headers message !! "destination" = Some destination →
  json_loads (body message) = Some (PDict d) →
  dict_get d JSONRPC_KEY_ID = PNone →
  notifiers self !! partition_last PREFIX_TOPIC_MESSAGE destination = Some h →
  py_kwargs (dict_get d JSONRPC_KEY_PARAMS) = Raise TypeError →
  process self message = (self, Raise TypeError)
  ∧ running self (Some message :: rest) = (set_listen self true, Crashed TypeError).
Proof.
  intros Hquit Hdest Hd Hid Hh Hp.
  assert (∀ s, notifiers s = notifiers self →
               process s message = (s, Raise TypeError)) as H.
  { intros s Hs.
    rewrite (process_notification_message json_loads json_dumps
               _ _ _ _ Hquit Hdest Hd Hid).
    unfold process_notification.
    cbn [notification set_notification params set_message_type envelope].
    by rewrite Hs, Hh, Hp. }
  split; [by apply H|].
  unfold run. cbn [run_loop listen set_listen]. by rewrite H.
Qed.

Lemma run_loop_not_listening self inputs :
  listen self = false → looping self inputs = (self, Stopped).
Proof. intros H. destruct inputs as [|[]]; cbn [run_loop]; by rewrite H. Qed.

(** X21.  A message whose body is [quit] is not decoded: whatever its headers
    are it only clears [listen], and [run] leaves the loop without
    receiving what follows. *)
Theorem quit_stops_the_loop self message rest :
  body message = MSG_QUIT →
  process self message = (set_listen self false, Return tt)
  ∧ running self (Some message :: rest) = (set_listen self false, Stopped).
Proof.
  intros Hq.
  assert (∀ s, process s message = (set_listen s false, Return tt)) as H.
  { intros s. unfold _process_message. by rewrite Hq. }
  split; [apply H|].
  unfold run. cbn [run_loop listen set_listen]. rewrite H.
  by rewrite run_loop_not_listening.
Qed.

Lemma run_loop_failures n self inputs :
  listen self = true →
  ∃ s',
    looping self (replicate n None ++ inputs) = looping s' inputs
    ∧ listen s' = true
    ∧ same_tables self s'
    ∧ transport_log s' =
        (transport_log self ++ replicate n (EvSleep DEFAULT_RETRY_TIME))%list.
Proof.
  revert self. induction n as [|n IH]; intros self Hl.
  - exists self. cbn [replicate app]. rewrite app_nil_r.
    repeat split; done.
  - cbn [replicate app run_loop]. rewrite Hl.
    destruct (IH (emit self (EvSleep DEFAULT_RETRY_TIME)) Hl)
      as (s' & Hrun & Hl' & Hsame & Hlog).
    exists s'. split; [exact Hrun|]. split; [exact Hl'|].
    split; [exact Hsame|]. rewrite Hlog. cbn. by rewrite <- app_assoc.
Qed.

(** X22.  A failing receive never ends [run]: after any number of them the
    loop has slept once per failure, changed nothing else, and goes on
    with the next receive. *)
Theorem receive_failures_are_slept_through self n inputs :
  ∃ s',
    running self (replicate n None ++ inputs) = looping s' inputs
    ∧ listen s' = true
    ∧ same_tables self s'
    ∧ transport_log s' =
        (transport_log self ++ replicate n (EvSleep DEFAULT_RETRY_TIME))%list
    ∧ running self (replicate n None) = (s', Receiving).
Proof.
  destruct (run_loop_failures n (set_listen self true) inputs eq_refl)
    as (s' & Hrun & Hl & Hsame & Hlog).
  destruct (run_loop_failures n (set_listen self true) [] eq_refl)
    as (s0 & Hrun0 & Hl0 & Hsame0 & Hlog0).
  exists s'. repeat split; try done; try apply Hsame.
  rewrite app_nil_r in Hrun0. unfold run. rewrite Hrun0.
  cbn [run_loop]. rewrite Hl0.
  assert (s0 = s') as ->; [|done].
  destruct Hsame as (?&?&?&?&?&?&?), Hsame0 as (?&?&?&?&?&?&?).
  destruct s0, s'; cbn in *. congruence.
Qed.

(** X23.  Whatever [run] receives and however it ends, it leaves both handler
    registries, both correlation tables, the counter, the reply topic
    and the connected flag as they were. *)
Theorem dispatch_loop_keeps_the_registries self inputs :
  let after := fst (run json_loads json_dumps self inputs) in
  methods after = methods self
  ∧ notifiers after = notifiers self
  ∧ callbacks_success after = callbacks_success self
  ∧ callbacks_error after = callbacks_error self
  ∧ last_id after = last_id self
  ∧ reply_to_topic after = reply_to_topic self
  ∧ is_connected after = is_connected self.
Proof. apply run_frame. Qed.

End Loop.

Lemma registered_notifier_serves_its_topic_witness :
  let listening :=
    fst (accept_notifications Sample.connected (PStr "ping") Sample.echo) in
  _process_message Exchange.loads Sample.dumps listening
    (Sample.message_to "/topic/msg.local.ping" [] Exchange.notice) =
  (emit listening (EvInvoke Sample.echo [("x", PInt 2)]), Return tt).
Proof.
  apply (registered_notifier_serves_its_topic Exchange.loads Sample.dumps
           Sample.connected "ping" Sample.echo
           (Sample.message_to "/topic/msg.local.ping" [] Exchange.notice)
           [Sample.version; ("method", PStr "ping");
            ("params", PDict [("x", PInt 2)])]
           [("x", PInt 2)]);
    vm_compute; (reflexivity || discriminate).
Defined.

Lemma unregistered_notification_raises_KeyError_witness :
  let message :=
    Sample.message_to "/topic/msg.local.ping" [] Exchange.notice in
  _process_message Exchange.loads Sample.dumps Sample.connected message =
    (Sample.connected, Raise KeyError)
  ∧ run Exchange.loads Sample.dumps Sample.connected [Some message; None] =
      (set_listen Sample.connected true, Crashed KeyError).
Proof.
  apply (unregistered_notification_raises_KeyError
           Exchange.loads Sample.dumps Sample.connected
           (Sample.message_to "/topic/msg.local.ping" [] Exchange.notice)
           [Sample.version; ("method", PStr "ping");
            ("params", PDict [("x", PInt 2)])]
           "/topic/msg.local.ping" [None]);
    vm_compute; (reflexivity || discriminate).
Defined.

Lemma notification_params_must_be_a_dict_witness :
  let self := Sample.listening Sample.echo in
  let message :=
    Sample.message_to "/topic/msg.local.ping" [] Exchange.null_id in
  _process_message Exchange.loads Sample.dumps self message =
    (self, Raise TypeError)
  ∧ run Exchange.loads Sample.dumps self [Some message; None] =
      (set_listen self true, Crashed TypeError).
Proof.
  apply (notification_params_must_be_a_dict
           Exchange.loads Sample.dumps (Sample.listening Sample.echo)
           (Sample.message_to "/topic/msg.local.ping" [] Exchange.null_id)
           [Sample.version; ("id", PNone); ("result", PInt 5)]
           "/topic/msg.local.ping" Sample.echo [None]);
    vm_compute; (reflexivity || discriminate).
Defined.

Lemma quit_stops_the_loop_witness :
  let message := {| headers := ∅; body := "quit" |} in
  _process_message Sample.loads Sample.dumps Sample.connected message =
    (set_listen Sample.connected false, Return tt)
  ∧ run Sample.loads Sample.dumps Sample.connected
        [Some message;
         Some (Sample.message_to "/topic/msg.local.ping" [] Sample.reply_ok)] =
      (set_listen Sample.connected false, Stopped).
Proof.
  apply (quit_stops_the_loop Sample.loads Sample.dumps Sample.connected
           {| headers := ∅; body := "quit" |}
           [Some (Sample.message_to "/topic/msg.local.ping" []
                    Sample.reply_ok)]).
  reflexivity.
Defined.

(** ** Connecting, disconnecting and calling *)

Lemma connect_loop_retries n self rest :
  ∃ s1,
    connect_loop self (replicate n false ++ true :: rest) = Some s1
    ∧ same_tables self s1
    ∧ listen s1 = listen self
    ∧ transport_log s1 =
        (transport_log self
         ++ concat (replicate n [EvConnect false; EvSleep DEFAULT_RETRY_TIME])
         ++ [EvConnect true])%list.
Proof.
  revert self. induction n as [|n IH]; intros self.
  - eexists. split; [reflexivity|]. by repeat split.
  - cbn [replicate app connect_loop].
    destruct (IH (emit (emit self (EvConnect false))
                       (EvSleep DEFAULT_RETRY_TIME)))
      as (s1 & Hloop & Hsame & Hl & Hlog).
    exists s1. split; [exact Hloop|]. split; [exact Hsame|].
    split; [exact Hl|]. rewrite Hlog. cbn. by rewrite <- !app_assoc.
Qed.

Lemma connect_loop_all_failed n self :
  connect_loop self (replicate n false) = None.
Proof. revert self. induction n as [|n IH]; intros self; [done | apply IH]. Qed.

(** X24.  [connect] retries for as long as the transport refuses, sleeping the
    retry time after each refusal, and returns at the first success: it
    then subscribes to the fresh reply topic in mode [client] and sets the
    connected flag, and it keeps both registries, both correlation tables
    and the counter.  While every attempt fails it does not return. *)
Theorem connect_retries_until_success self n rest (random_string : string) :
  connect self (replicate n false) random_string = None
  ∧ ∃ s',
      connect self (replicate n false ++ true :: rest) random_string = Some s'
      ∧ is_connected s' = true
      ∧ reply_to_topic s' = Some ("/topic/reply-" +:+ random_string)
      ∧ transport_log s' =
          (transport_log self
           ++ concat (replicate n [EvConnect false; EvSleep 1])
           ++ [EvConnect true;
               EvSubscribe ("/topic/reply-" +:+ random_string) "client"])%list
      ∧ methods s' = methods self
      ∧ notifiers s' = notifiers self
      ∧ callbacks_success s' = callbacks_success self
      ∧ callbacks_error s' = callbacks_error self
      ∧ last_id s' = last_id self.
Proof.
  split.
  { unfold connect. by rewrite connect_loop_all_failed. }
  destruct (connect_loop_retries n self rest)
    as (s1 & Hloop & (?&?&?&?&?&?&?) & _ & Hlog).
  unfold connect. rewrite Hloop. eexists. split; [reflexivity|].
  cbn. rewrite Hlog. repeat split; try done.
  by rewrite <- !app_assoc.
Qed.

(** X25.  [disconnect] clears nothing but the connected flag.  Registration is
    refused until the next [connect], after which the handlers, the
    pending correlation entries and the counter are all still there, and
    the reply topic is the new one. *)
Theorem handlers_survive_reconnect
    self attempts (random_string : string) s' (m : pyval) (cb : kwhandler) :
  connect (disconnect self) attempts random_string = Some s' →
  accept_calls (disconnect self) m cb =
    (disconnect self, Raise NotConnectedError)
  ∧ accept_notifications (disconnect self) m cb =
      (disconnect self, Raise NotConnectedError)
  ∧ reply_to_topic (disconnect self) = reply_to_topic self
  ∧ is_connected s' = true
  ∧ reply_to_topic s' = Some (PREFIX_REPLY +:+ random_string)
  ∧ methods s' = methods self
  ∧ notifiers s' = notifiers self
  ∧ callbacks_success s' = callbacks_success self
  ∧ callbacks_error s' = callbacks_error self
  ∧ last_id s' = last_id self.
Proof.
  unfold connect.
  destruct (connect_loop (disconnect self) attempts) as [s1|] eqn:Hloop;
    [|done].
  apply connect_loop_frame in Hloop as (?&?&?&?&?&?&?).
  intros [= <-]. by repeat split.
Qed.

Lemma handlers_survive_reconnect_witness :
  let self := Sample.serving Sample.echo in
  let s' :=
    default JSONRPCStomp_init
            (connect (disconnect self) [false; true] "ZYXWVUTS87654321") in
  accept_calls (disconnect self) (PStr "more") Sample.echo =
    (disconnect self, Raise NotConnectedError)
  ∧ accept_notifications (disconnect self) (PStr "more") Sample.echo =
      (disconnect self, Raise NotConnectedError)
  ∧ reply_to_topic (disconnect self) = reply_to_topic self
  ∧ is_connected s' = true
  ∧ reply_to_topic s' = Some (PREFIX_REPLY +:+ "ZYXWVUTS87654321")
  ∧ methods s' = methods self
  ∧ notifiers s' = notifiers self
  ∧ callbacks_success s' = callbacks_success self
  ∧ callbacks_error s' = callbacks_error self
  ∧ last_id s' = last_id self.
Proof.
  apply (handlers_survive_reconnect (Sample.serving Sample.echo)
           [false; true] "ZYXWVUTS87654321").
  vm_compute. reflexivity.
Defined.

(** Every index below 36 selects an uppercase letter or a digit. *)
Lemma choice_in_alphabet (j : nat) :
  (j < 36)%nat →
  ∃ c, choice TOKEN_ALPHABET j = Some c
       ∧ ((65 ≤ Ascii.nat_of_ascii c ≤ 90)%nat
          ∨ (48 ≤ Ascii.nat_of_ascii c ≤ 57)%nat).
Proof.
  intros Hj.
  do 36 (destruct j as [|j];
         [eexists; split; [reflexivity | vm_compute; lia]|]).
  lia.
Qed.

(** For draws inside the alphabet the sixteen choices give a string of
    the sixteen selected characters. *)
Lemma random_string_in_alphabet (draw : nat → nat) :
  (∀ x, (x < 16)%nat → (draw x < 36)%nat) →
  ∃ token,
    random_string draw = Some token
    ∧ String.length token = 16%nat
    ∧ (∀ i, (i < 16)%nat →
            String.get i token = choice TOKEN_ALPHABET (draw i))
    ∧ (∀ i c, String.get i token = Some c →
              (65 ≤ Ascii.nat_of_ascii c ≤ 90)%nat
              ∨ (48 ≤ Ascii.nat_of_ascii c ≤ 57)%nat).
Proof.
  intros Hdraw. unfold random_string. cbn [seq foldr].
  assert (∀ x, (x < 16)%nat →
            ∃ c, choice TOKEN_ALPHABET (draw x) = Some c
                 ∧ ((65 ≤ Ascii.nat_of_ascii c ≤ 90)%nat
                    ∨ (48 ≤ Ascii.nat_of_ascii c ≤ 57)%nat)) as Hc.
  { intros x Hx. apply choice_in_alphabet. by apply Hdraw. }
  destruct (Hc 0%nat) as (c0 & E0 & R0); [lia|].
  destruct (Hc 1%nat) as (c1 & E1 & R1); [lia|].
  destruct (Hc 2%nat) as (c2 & E2 & R2); [lia|].
  destruct (Hc 3%nat) as (c3 & E3 & R3); [lia|].
  destruct (Hc 4%nat) as (c4 & E4 & R4); [lia|].
  destruct (Hc 5%nat) as (c5 & E5 & R5); [lia|].
  destruct (Hc 6%nat) as (c6 & E6 & R6); [lia|].
  destruct (Hc 7%nat) as (c7 & E7 & R7); [lia|].
  destruct (Hc 8%nat) as (c8 & E8 & R8); [lia|].
  destruct (Hc 9%nat) as (c9 & E9 & R9); [lia|].
  destruct (Hc 10%nat) as (c10 & E10 & R10); [lia|].
  destruct (Hc 11%nat) as (c11 & E11 & R11); [lia|].
  destruct (Hc 12%nat) as (c12 & E12 & R12); [lia|].
  destruct (Hc 13%nat) as (c13 & E13 & R13); [lia|].
  destruct (Hc 14%nat) as (c14 & E14 & R14); [lia|].
  destruct (Hc 15%nat) as (c15 & E15 & R15); [lia|].
  rewrite E0, E1, E2, E3, E4, E5, E6, E7, E8, E9, E10, E11, E12, E13,
    E14, E15.
  eexists. split; [reflexivity|]. split; [reflexivity|]. split.
  - intros i Hi.
    do 16 (destruct i as [|i]; [by cbn|]). lia.
  - intros i c.
    do 16 (destruct i as [|i]; [cbn; by intros [= <-]|]).
    cbn. done.
Qed.

(** X26.  When [connect] returns, the reply topic it has set and
    subscribed to is [/topic/reply-] followed by the sixteen characters
    its draws selected from the alphabet, in order, each an uppercase
    letter or a digit. *)
Theorem reply_token_is_sixteen_uppercase_or_digits
    self attempts (draw : nat → nat) s' :
  (∀ x, (x < 16)%nat → (draw x < 36)%nat) →
  connect_drawing self attempts draw = Some s' →
  ∃ token,
    reply_to_topic s' = Some ("/topic/reply-" +:+ token)
    ∧ (∃ before,
         transport_log s' =
         (before ++ [EvSubscribe ("/topic/reply-" +:+ token) "client"])%list)
    ∧ connect self attempts token = Some s'
    ∧ String.length token = 16%nat
    ∧ (∀ i, (i < 16)%nat →
            String.get i token = choice TOKEN_ALPHABET (draw i))
    ∧ (∀ i c, String.get i token = Some c →
              (65 ≤ Ascii.nat_of_ascii c ≤ 90)%nat
              ∨ (48 ≤ Ascii.nat_of_ascii c ≤ 57)%nat).
Proof.
  intros Hdraw Hconnect.
  destruct (random_string_in_alphabet draw Hdraw)
    as (token & Htoken & Hlen & Hget & Hrange).
  unfold connect_drawing in Hconnect. unfold connect.
  destruct (connect_loop self attempts) as [s1|]; [|done].
  rewrite Htoken in Hconnect. injection Hconnect as <-.
  exists token. split; [done|]. split; [by eexists|]. by repeat split.
Qed.

Lemma reply_token_is_sixteen_uppercase_or_digits_witness :
  ∃ token,
    reply_to_topic Sample.connected = Some ("/topic/reply-" +:+ token)
    ∧ (∃ before,
         transport_log Sample.connected =
         (before ++ [EvSubscribe ("/topic/reply-" +:+ token) "client"])%list)
    ∧ connect JSONRPCStomp_init [true] token = Some Sample.connected
    ∧ String.length token = 16%nat
    ∧ (∀ i, (i < 16)%nat →
            String.get i token = choice TOKEN_ALPHABET (Exchange.draws i))
    ∧ (∀ i c, String.get i token = Some c →
              (65 ≤ Ascii.nat_of_ascii c ≤ 90)%nat
              ∨ (48 ≤ Ascii.nat_of_ascii c ≤ 57)%nat).
Proof.
  apply (reply_token_is_sixteen_uppercase_or_digits
           JSONRPCStomp_init [true] Exchange.draws Sample.connected).
  - intros x Hx. do 16 (destruct x as [|x]; [vm_compute; lia|]). lia.
  - vm_compute. reflexivity.
Defined.

Example reply_token_of_the_sample_draws :
  random_string Exchange.draws = Some "ABCDEFGH12345678".
Proof. reflexivity. Qed.

(** ** Calls and notifications from end to end *)

Section Exchanges.

Variable json_loads : string → option pyval.
Variable json_dumps : pyval → string.

Abbreviation process := (_process_message json_loads json_dumps).

(** X27.  [call] takes its id and stores both callbacks before it can fail.
    With a method name that is not a string, or on a session that never
    connected, it raises without publishing anything, and the id is
    spent all the same. *)
Theorem failed_call_still_consumes_an_id
    self (m p : pyval) (cs ce : callback) :
  isinstance_str m = None ∨ reply_to_topic self = None →
  let after := fst (call json_dumps self m p cs ce) in
  (snd (call json_dumps self m p cs ce) = Raise TypeError
   ∨ snd (call json_dumps self m p cs ce) = Raise AttributeError)
  ∧ transport_log after = transport_log self
  ∧ last_id after = last_id self + 1
  ∧ callbacks_success after !! (last_id self + 1) = Some cs
  ∧ callbacks_error after !! (last_id self + 1) = Some ce.
Proof.
  intros H. unfold call, trans_id.
  destruct m; cbn in H |- *;
    try (split; [by left|]; repeat split; apply lookup_insert_eq).
  destruct H as [H|H]; [done|]. rewrite H. cbn.
  split; [by right|]. repeat split; apply lookup_insert_eq.
Qed.

(** X28.  What [notify] publishes is an envelope without an id, sent to the
    notification topic of the method, and [notify] stores nothing.  When
    that message is received by a session that registered a handler for
    the method, the handler is called with the members of the [params]
    dict that was passed to [notify]. *)
Theorem notification_round_trip
    sender receiver (name : string) kwargs (h : kwhandler) message :
  let envelope :=
    PDict [("jsonrpc", PStr "2.0"); ("method", PStr name);
           ("params", PDict kwargs)] in
  json_loads (json_dumps envelope) = Some envelope →
  json_dumps envelope ≠ MSG_QUIT →
  body message = json_dumps envelope →
  headers message !! "destination" = Some (PREFIX_TOPIC_MESSAGE +:+ name) →
  notifiers receiver !! name = Some h →
  notify json_dumps sender (PStr name) (PDict kwargs) =
    (put sender (json_dumps envelope)
         (Some (PREFIX_TOPIC_MESSAGE +:+ name)) [],
     Return tt)
  ∧ last_id (fst (notify json_dumps sender (PStr name) (PDict kwargs)))
      = last_id sender
  ∧ callbacks_success
      (fst (notify json_dumps sender (PStr name) (PDict kwargs)))
      = callbacks_success sender
  ∧ callbacks_error
      (fst (notify json_dumps sender (PStr name) (PDict kwargs)))
      = callbacks_error sender
  ∧ process receiver message =
      (emit receiver (EvInvoke h kwargs), ignore_value (h kwargs)).
Proof.
  intros envelope Hrt Hquit Hbody Hdest Hh.
  repeat split.
  rewrite <- Hbody in Hrt, Hquit.
  rewrite (process_notification_message json_loads json_dumps
             receiver message _ _ Hquit Hdest Hrt eq_refl).
  unfold process_notification.
  cbn [notification set_notification params set_message_type envelope
       dict_get].
  rewrite partition_last_app, Hh. reflexivity.
Qed.

(** X29.  A call from end to end.  The caller publishes the request; a server
    that registered the method and receives that request calls its
    handler with the decoded parameters and publishes the response to the
    caller's reply topic; the caller, receiving that response, calls
    [callback_success] with the handler's result, unless the result is
    [None], in which case it calls [callback_error] with [None]. *)
Theorem call_round_trip
    caller server (token name : string) (p : pyval) kwargs (h : kwhandler)
    (v : pyval) (onS onE : callback) job reply :
  let request :=
    PDict [("jsonrpc", PStr "2.0"); ("method", PStr name);
           ("id", PInt (last_id caller + 1)); ("params", p)] in
  let response :=
    PDict [("jsonrpc", PStr "2.0"); ("id", PInt (last_id caller + 1));
           ("result", v)] in
  reply_to_topic caller = Some (PREFIX_REPLY +:+ token) →
  methods server !! name = Some h →
  decode_params json_loads p = Return (PDict kwargs) →
  h kwargs = Return (Json v) →
  json_loads (json_dumps request) = Some request →
  json_dumps request ≠ MSG_QUIT →
  json_loads (json_dumps response) = Some response →
  json_dumps response ≠ MSG_QUIT →
  body job = json_dumps request →
  headers job !! "destination" = Some (PREFIX_TOPIC_JOB +:+ name) →
  headers job !! "reply-to" = Some (PREFIX_REPLY +:+ token) →
  body reply = json_dumps response →
  headers reply !! "destination" = Some (PREFIX_REPLY +:+ token) →
  let caller1 := fst (call json_dumps caller (PStr name) p onS onE) in
  call json_dumps caller (PStr name) p onS onE =
    (put (set_callbacks (set_last_id caller (last_id caller + 1))
            (<[last_id caller + 1 := onS]> (callbacks_success caller))
            (<[last_id caller + 1 := onE]> (callbacks_error caller)))
         (json_dumps request) (Some (PREFIX_TOPIC_JOB +:+ name))
         [("reply-to", PREFIX_REPLY +:+ token)],
     Return tt)
  ∧ process server job =
      (put (emit server (EvInvoke h kwargs)) (json_dumps response)
           (Some (PREFIX_REPLY +:+ token)) [],
       Return tt)
  ∧ process caller1 reply =
      if is_None v
      then (emit caller1 (EvCallback onE PNone), ignore_value (onE PNone))
      else (emit caller1 (EvCallback onS v), ignore_value (onS v)).
Proof.
  intros request response Htopic Hh Hdec Hv Hrq Hqq Hrs Hqs
    Hjb Hjd Hjr Hrb Hrd caller1.
  assert (call json_dumps caller (PStr name) p onS onE =
          (put (set_callbacks (set_last_id caller (last_id caller + 1))
                  (<[last_id caller + 1 := onS]> (callbacks_success caller))
                  (<[last_id caller + 1 := onE]> (callbacks_error caller)))
               (json_dumps request) (Some (PREFIX_TOPIC_JOB +:+ name))
               [("reply-to", PREFIX_REPLY +:+ token)],
           Return tt)) as Hcall.
  { unfold call, trans_id.
    cbn [py_concat reply_to_topic set_callbacks set_last_id].
    by rewrite Htopic. }
  split; [exact Hcall|]. split.
  - rewrite <- Hjb in Hrq, Hqq.
    rewrite (job_dispatch json_loads json_dumps server job _
               (PREFIX_TOPIC_JOB +:+ name) h kwargs Hqq Hjd Hrq);
      try done.
    + unfold JSONRPC_KEY_REPLY_TO. by rewrite Hv, Hjr.
    + apply startswith_app.
    + by rewrite partition_last_app.
  - rewrite <- Hrb in Hrs, Hqs.
    rewrite (reply_dispatch json_loads json_dumps caller1 reply _
               (PREFIX_REPLY +:+ token) (last_id caller + 1) onS onE
               Hqs Hrd Hrs); try done.
    + apply startswith_app.
    + subst caller1. rewrite Hcall. cbn. apply lookup_insert_eq.
    + subst caller1. rewrite Hcall. cbn. apply lookup_insert_eq.
Qed.

End Exchanges.

Lemma failed_call_still_consumes_an_id_witness :
  let after :=
    fst (call Sample.dumps JSONRPCStomp_init (PStr "add") (PDict [])
              Sample.on_success Sample.on_error) in
  (snd (call Sample.dumps JSONRPCStomp_init (PStr "add") (PDict [])
             Sample.on_success Sample.on_error) = Raise TypeError
   ∨ snd (call Sample.dumps JSONRPCStomp_init (PStr "add") (PDict [])
               Sample.on_success Sample.on_error) = Raise AttributeError)
  ∧ transport_log after = transport_log JSONRPCStomp_init
  ∧ last_id after = last_id JSONRPCStomp_init + 1
  ∧ callbacks_success after !! (last_id JSONRPCStomp_init + 1)
      = Some Sample.on_success
  ∧ callbacks_error after !! (last_id JSONRPCStomp_init + 1)
      = Some Sample.on_error.
Proof.
  apply (failed_call_still_consumes_an_id Sample.dumps JSONRPCStomp_init
           (PStr "add") (PDict []) Sample.on_success Sample.on_error).
  right. reflexivity.
Defined.

Lemma notification_round_trip_witness :
  let message :=
    Sample.message_to "/topic/msg.local.ping" [] Exchange.notice in
  notify Sample.dumps Sample.connected (PStr "ping")
         (PDict [("x", PInt 2)]) =
    (put Sample.connected (Sample.dumps Exchange.notice)
         (Some (PREFIX_TOPIC_MESSAGE +:+ "ping")) [],
     Return tt)
  ∧ last_id (fst (notify Sample.dumps Sample.connected (PStr "ping")
                         (PDict [("x", PInt 2)])))
      = last_id Sample.connected
  ∧ callbacks_success
      (fst (notify Sample.dumps Sample.connected (PStr "ping")
                   (PDict [("x", PInt 2)])))
      = callbacks_success Sample.connected
  ∧ callbacks_error
      (fst (notify Sample.dumps Sample.connected (PStr "ping")
                   (PDict [("x", PInt 2)])))
      = callbacks_error Sample.connected
  ∧ _process_message Exchange.loads Sample.dumps
      (Sample.listening Sample.echo) message =
      (emit (Sample.listening Sample.echo)
            (EvInvoke Sample.echo [("x", PInt 2)]),
       Return tt).
Proof.
  apply (notification_round_trip Exchange.loads Sample.dumps
           Sample.connected (Sample.listening Sample.echo) "ping"
           [("x", PInt 2)] Sample.echo
           (Sample.message_to "/topic/msg.local.ping" [] Exchange.notice));
    vm_compute; (reflexivity || discriminate).
Defined.

Lemma call_round_trip_witness :
  let caller1 :=
    fst (call Sample.dumps Sample.connected (PStr "echo") (PStr "{}")
              Sample.on_success Sample.on_error) in
  snd (call Sample.dumps Sample.connected (PStr "echo") (PStr "{}")
            Sample.on_success Sample.on_error) = Return tt
  ∧ _process_message Exchange.loads Sample.dumps
      (Exchange.server Sample.echo) (Sample.job_to_echo Exchange.request) =
      (put (emit (Exchange.server Sample.echo) (EvInvoke Sample.echo []))
           (Sample.dumps Exchange.response) (Some Sample.reply_topic) [],
       Return tt)
  ∧ _process_message Exchange.loads Sample.dumps caller1
      (Sample.message_to Sample.reply_topic [] Exchange.response) =
      (emit caller1 (EvCallback Sample.on_success (PDict [])), Return tt).
Proof.
  destruct (call_round_trip Exchange.loads Sample.dumps
              Sample.connected (Exchange.server Sample.echo)
              "ABCDEFGH12345678" "echo" (PStr "{}") [] Sample.echo (PDict [])
              Sample.on_success Sample.on_error
              (Sample.job_to_echo Exchange.request)
              (Sample.message_to Sample.reply_topic [] Exchange.response))
    as (Hcall & Hjob & Hreply);
    try (vm_compute; (reflexivity || discriminate)).
  split; [by rewrite Hcall|]. split; [exact Hjob | exact Hreply].
Defined.

(** The same exchange with a handler that returns [None]: the response
    carries a null result, and the caller's error callback is called. *)
Example none_result_reaches_the_error_callback :
  let caller1 :=
    fst (call Sample.dumps Sample.connected (PStr "echo") (PStr "{}")
              Sample.on_success Sample.on_error) in
  _process_message Exchange.loads Sample.dumps
    (Exchange.server Exchange.returns_none)
    (Sample.job_to_echo Exchange.request) =
    (put (emit (Exchange.server Exchange.returns_none)
               (EvInvoke Exchange.returns_none []))
         (Sample.dumps Exchange.response_none) (Some Sample.reply_topic) [],
     Return tt)
  ∧ _process_message Exchange.loads Sample.dumps caller1
      (Sample.message_to Sample.reply_topic [] Exchange.response_none) =
      (emit caller1 (EvCallback Sample.on_error PNone), Return tt).
Proof. split; vm_compute; reflexivity. Qed.

(** A handler that returns normally a value [json.dumps] rejects: the
    [TypeError] of [json.dumps] is caught like any failure of the [try],
    and the Internal error is what is published. *)
Example unserialisable_result_gets_internal_error :
  _process_message Exchange.loads Sample.dumps
    (Exchange.server Exchange.returns_a_set)
    (Sample.job_to_echo Exchange.request) =
  (put (emit (Exchange.server Exchange.returns_a_set)
             (EvInvoke Exchange.returns_a_set []))
       (Sample.dumps (error_response (PInt 1))) (Some Sample.reply_topic) [],
   Return tt).
Proof. vm_compute. reflexivity. Qed.
